(** * text-to-cad-ui: the multi-format export flow and its conversion proxy

    A shallow embedding of
    - [src/components/DownloadButton.svelte]: the format selector with its
      cache of converted outputs and the [updateOutput] handler,
    - [src/routes/api/convert/[output_format]/+server.ts]: the conversion proxy,
    - the generation-view proxy module (a [+server.ts] whose [POST] forwards
      to [endpoints.view]),
    followed by the properties of the export flow.

    Asynchronous handlers are cut at their [await]s on the network: the part
    of a handler up to its [fetch] is one function, the part that runs when
    the response arrives is another, and a small event machine interleaves
    them the way the browser's event loop may. *)

From Stdlib Require Import ZArith Lia List Ascii String DecimalString.
From Stdlib Require DecimalPos DecimalFacts.
From stdpp Require Import base option strings gmap list.

Local Open Scope string_scope.
Local Open Scope list_scope.
Local Open Scope Z_scope.

(** ** JavaScript values the code relies on *)

Module Js.

(** A value that is a string or [undefined] ([None]). *)
Definition truthy_str (s : string) : bool :=
  match s with EmptyString => false | String _ _ => true end.

Definition truthy (v : option string) : bool :=
  match v with Some s => truthy_str s | None => false end.

(** [o[k]] on an object whose slots hold a string or [undefined]: an absent
    key and a key holding [undefined] both read as [undefined]. *)
Definition get (o : gmap string (option string)) (k : string) : option string :=
  match o !! k with Some v => v | None => None end.

(** [Number.prototype.toString] on an integer. *)
Definition Number_toString (n : Z) : string :=
  NilZero.string_of_int (Z.to_int n).

(** [s.startsWith(p)]. *)
Definition startsWith (s p : string) : bool := String.prefix p s.

(** [Response.ok]. *)
Definition response_ok (http_status : Z) : bool :=
  (200 <=? http_status) && (http_status <=? 299).

(** *** [encodeURIComponent]

    A string is its sequence of UTF-8 bytes.  Every byte outside the
    unreserved set [A-Z a-z 0-9 - _ . ! ~ * ' ( )] is written [%XX] with
    upper-case hexadecimal digits. *)
Definition between (lo hi n : N) : bool := (N.leb lo n && N.leb n hi)%N.

Definition unreserved (c : ascii) : bool :=
  let n := N_of_ascii c in
  between 65 90 n || between 97 122 n || between 48 57 n
  || existsb (N.eqb n) [45; 95; 46; 33; 126; 42; 39; 40; 41]%N.

Definition hex_digit (n : N) : ascii :=
  ascii_of_N (if (n <? 10)%N then 48 + n else 55 + n)%N.

Definition hex_value (c : ascii) : option N :=
  let n := N_of_ascii c in
  if between 48 57 n then Some (n - 48)%N
  else if between 65 70 n then Some (n - 55)%N
  else if between 97 102 n then Some (n - 87)%N
  else None.

Fixpoint encodeURIComponent (s : string) : string :=
  match s with
  | EmptyString => EmptyString
  | String c rest =>
      if unreserved c then String c (encodeURIComponent rest)
      else
        let n := N_of_ascii c in
        String "%" (String (hex_digit (n / 16)) (String (hex_digit (n mod 16))
          (encodeURIComponent rest)))
  end.

(** What a consumer of a [data:] URL does with its data part: undo the
    percent-encoding.  [None] on a malformed escape. *)
Fixpoint percent_decode (s : string) : option string :=
  match s with
  | EmptyString => Some EmptyString
  | String "%" (String h (String l rest)) =>
      match hex_value h, hex_value l, percent_decode rest with
      | Some a, Some b, Some r => Some (String (ascii_of_N (16 * a + b)) r)
      | _, _, _ => None
      end
  | String "%" _ => None
  | String c rest =>
      match percent_decode rest with
      | Some r => Some (String c r)
      | None => None
      end
  end.

(** Split [data:<mediatype>,<data>] at its first comma. *)
Fixpoint split_comma (s : string) : option (string * string) :=
  match s with
  | EmptyString => None
  | String "," rest => Some (EmptyString, rest)
  | String c rest =>
      match split_comma rest with
      | Some (a, b) => Some (String c a, b)
      | None => None
      end
  end.

Definition data_url_parts (u : string) : option (string * string) :=
  match u with
  | String "d" (String "a" (String "t" (String "a" (String ":" rest)))) =>
      split_comma rest
  | _ => None
  end.

End Js.

(** ** [$lib]: what the two files import and [src/] does not hold *)

(** The helpers of [$lib] whose bodies are not part of the sources at hand.
    The properties below hold for every implementation of them. *)
Class Lib := {
  (** [base64ToBlob(b64)]: the raw bytes of a base64 string (the argument
      is [undefined] when the outputs mapping has no such entry). *)
  base64ToBlob : option string -> string;
  (** [toKebabCase(prompt)], the stem of the download's file name. *)
  toKebabCase : string -> string;
  (** [AUTH_COOKIE_NAME], the name of the session cookie. *)
  AUTH_COOKIE_NAME : string;
  (** [endpoints.convert(output_format)], the conversion service's URL. *)
  endpoints_convert : string -> string
}.

Module Endpoints.

(** Modelled from the spec: the table [CADMIMETypes] of [$lib/endpoints],
    which [src/] imports but does not contain; its rows are the spec's
    "Supported format set and content types". *)
Definition CADMIMETypes : list (string * string) :=
  [ ("fbx", "application/octet-stream");
    ("glb", "model/gltf-binary");
    ("gltf", "model/gltf+json");
    ("obj", "application/octet-stream");
    ("ply", "application/octet-stream");
    ("stl", "application/sla");
    ("step", "application/STEP") ].

(** [Object.keys(CADMIMETypes)]. *)
Definition keys : list string := map fst CADMIMETypes.

(** [CADMIMETypes[f]]. *)
Fixpoint assoc (l : list (string * string)) (f : string) : option string :=
  match l with
  | [] => None
  | (k, v) :: rest => if decide (k = f) then Some v else assoc rest f
  end.

Definition mime (f : string) : option string := assoc CADMIMETypes f.

(** A supported concrete format: a key of the table. *)
Definition supported (f : string) : Prop := f ∈ keys.

(** The proxy's route file lives at [routes/api/convert/[output_format]]. *)
Definition route_prefix : string := "/api/convert/".

(** Modelled from the spec: [endpoints.localConvert] of [$lib/endpoints],
    which [src/] does not contain: the proxy's path with the target format
    as its path parameter, the last segment. *)
Definition localConvert (f : string) : string := route_prefix +:+ f.

Fixpoint strip_prefix (p s : string) : option string :=
  match p, s with
  | EmptyString, _ => Some s
  | String a p', String b s' => if decide (a = b) then strip_prefix p' s' else None
  | String _ _, EmptyString => None
  end.

Fixpoint has_slash (s : string) : bool :=
  match s with
  | EmptyString => false
  | String c rest => if decide (c = "/"%char) then true else has_slash rest
  end.

(** Modelled from the spec: the router's binding of [params.output_format]
    for a path: the one segment after the route's prefix, [undefined] when
    the path does not have that shape. *)
Definition output_format_param (path : string) : option string :=
  match strip_prefix route_prefix path with
  | Some seg => if Js.truthy_str seg && negb (has_slash seg) then Some seg else None
  | None => None
  end.

End Endpoints.

(** ** [DownloadButton.svelte] *)

Module DownloadButton.
Import Js Endpoints.

Inductive Status := loading | ready | failed.

(** The component's props and variables.  [outputs] is the mapping of the
    owning generation result, shared with the parent and written in place;
    a slot holds a base64 string or [undefined]. *)
Record Component := {
  prompt : string;
  code : string;
  outputs : gmap string (option string);
  currentOutput : string;
  outputData : option string;
  status : Status
}.

Definition set_currentOutput (v : string) (c : Component) : Component :=
  {| prompt := prompt c; code := code c; outputs := outputs c;
     currentOutput := v; outputData := outputData c; status := status c |}.

Definition set_status (s : Status) (c : Component) : Component :=
  {| prompt := prompt c; code := code c; outputs := outputs c;
     currentOutput := currentOutput c; outputData := outputData c; status := s |}.

Definition set_outputData (d : option string) (c : Component) : Component :=
  {| prompt := prompt c; code := code c; outputs := outputs c;
     currentOutput := currentOutput c; outputData := d; status := status c |}.

Definition set_outputs (o : gmap string (option string)) (c : Component) : Component :=
  {| prompt := prompt c; code := code c; outputs := o;
     currentOutput := currentOutput c; outputData := outputData c; status := status c |}.

(** The component as mounted: [currentOutput = 'gltf'],
    [outputData = outputs['source.gltf']], [status = 'ready']. *)
Definition mount (prompt code : string) (outputs : gmap string (option string)) : Component :=
  {| prompt := prompt; code := code; outputs := outputs;
     currentOutput := "gltf"; outputData := get outputs "source.gltf"; status := ready |}.

(** The options of the select: the table's keys, and [kcl] when there is
    source text. *)
Definition availableFormats (c : Component) : list string :=
  keys ++ (if truthy_str (code c) then ["kcl"] else []).

(** The template literal [`source.${f}`]. *)
Definition key (f : string) : string := "source." +:+ f.

(** How a template literal prints a value that may be [undefined]. *)
Definition interpolate (v : option string) : string :=
  match v with Some s => s | None => "undefined" end.

(** The reactive declarations. *)
Definition currentMimeType (c : Component) : option string :=
  if decide (currentOutput c = "kcl") then Some "text/plain" else mime (currentOutput c).

Definition dataUrl (c : Component) : string :=
  if decide (currentOutput c = "kcl")
  then "data:text/plain;charset=utf-8," +:+ encodeURIComponent (code c)
  else "data:" +:+ interpolate (currentMimeType c) +:+ ";base64," +:+ interpolate (outputData c).

Definition fileName `{Lib} (c : Component) : string :=
  toKebabCase (prompt c) +:+ "." +:+ currentOutput c.

(** The [init] argument of the component's [fetch]. *)
Record Request := {
  url : string;
  method : string;
  headers : list (string * string);
  credentials : string;
  body : string
}.

(** What the handler does to the world outside the component. *)
Inductive Effect :=
| Fetch (r : Request)
| Click (href download : string).

(** [await tick(); link.click()]: the anchor is rendered from the committed
    state (it exists because [status] is [ready] by then), so the click
    saves [dataUrl] under [fileName]. *)
Definition click `{Lib} (c : Component) : Effect := Click (dataUrl c) (fileName c).

(** Lines 68-73, shared by the cache hit and the converted result. *)
Definition settle `{Lib} (c : Component) : Component * list Effect :=
  let c1 := set_status (if truthy (outputData c) then ready else failed) c in
  (c1, if truthy (outputData c1) then [click c1] else []).

Definition convertRequest `{Lib} (c : Component) : Request :=
  {| url := localConvert (currentOutput c);
     method := "POST";
     headers := [("Content-Type", "application/octet-stream")];
     credentials := "include";
     body := base64ToBlob (get (outputs c) "source.gltf") |}.

(** [updateOutput], from the [change] event up to its first [await] on the
    network (lines 35-57).  [value] is [e.currentTarget.value]. *)
Definition updateOutput `{Lib} (value : string) (c : Component) : Component * list Effect :=
  let c := set_currentOutput value c in
  let c := set_status loading c in
  if decide (currentOutput c = "kcl") then
    let c := set_status (if truthy_str (code c) then ready else failed) c in
    (c, if truthy_str (code c) then [click c] else [])
  else if truthy (get (outputs c) (key (currentOutput c))) then
    settle (set_outputData (get (outputs c) (key (currentOutput c))) c)
  else
    (c, [Fetch (convertRequest c)]).

(** The value of [await response.json()], read at the type [ConvertResponse]:
    a falsy value ([null], [false], [0], the empty string), or a value whose
    [statusCode] and [outputs] properties may each be missing. *)
Inductive ResponseData :=
| Falsy
| Data (statusCode : option Z) (outputs : option (gmap string string)).

(** A response of the conversion proxy as the component sees it.
    [json = None]: the body is not JSON and [response.json()] rejects. *)
Record Response := {
  http_status : Z;
  json : option ResponseData
}.

(** How an invocation of the handler ends. *)
Inductive JsError := SyntaxError | TypeError.
Inductive Completion := Returned | Rejected (e : JsError).

(** [updateOutput], from the arrival of the response to the end (lines
    59-73).  Nothing of the invocation that sent the request is used here:
    the code reads the component's [currentOutput] again. *)
Definition onResponse `{Lib} (r : Response) (c : Component)
  : Component * list Effect * Completion :=
  match json r with
  | None => (c, [], Rejected SyntaxError)
  | Some responseData =>
      if negb (response_ok (http_status r)) then (set_status failed c, [], Returned)
      else
        match responseData with
        | Falsy => (set_status failed c, [], Returned)
        | Data None _ => (c, [], Rejected TypeError)
        | Data (Some statusCode) outs =>
            if negb (startsWith (Number_toString statusCode) "2")
            then (set_status failed c, [], Returned)
            else
              match outs with
              | None => (c, [], Rejected TypeError)
              | Some o =>
                  let k := key (currentOutput c) in
                  let c := set_outputs (<[k := o !! k]> (outputs c)) c in
                  let c := set_outputData (get (outputs c) k) c in
                  let '(c, effects) := settle c in
                  (c, effects, Returned)
              end
        end
  end.

(** *** The event loop around the component *)

(** The component, the requests still in flight (oldest first), and
    everything done so far (oldest first). *)
Record World := {
  comp : Component;
  inflight : list Request;
  trace : list Effect
}.

Inductive Event :=
| Select (value : string)          (** the select's [change] event *)
| Respond (i : nat) (r : Response) (** the [i]-th request in flight completes *)
| Navigate.                        (** [onNavigate] *)

Definition fetches (es : list Effect) : list Request :=
  omap (fun e => match e with Fetch r => Some r | Click _ _ => None end) es.

Definition clicks (es : list Effect) : list (string * string) :=
  omap (fun e => match e with Click h d => Some (h, d) | Fetch _ => None end) es.

Definition step `{Lib} (e : Event) (w : World) : World :=
  match e with
  | Select value =>
      let '(c, effects) := updateOutput value (comp w) in
      {| comp := c; inflight := inflight w ++ fetches effects; trace := trace w ++ effects |}
  | Respond i r =>
      match inflight w !! i with
      | None => w
      | Some _ =>
          let '(c, effects, _) := onResponse r (comp w) in
          {| comp := c; inflight := delete i (inflight w); trace := trace w ++ effects |}
      end
  | Navigate =>
      {| comp := set_currentOutput "gltf" (comp w); inflight := inflight w; trace := trace w |}
  end.

Definition run `{Lib} (es : list Event) (w : World) : World :=
  foldl (fun w e => step e w) w es.

Definition display (c : Component) : World :=
  {| comp := c; inflight := []; trace := [] |}.

(** *** Reading a response *)

(** The payload a response carries under a key: that of its body's
    [outputs] object, when the body has one. *)
Definition payload (r : Response) (k : string) : option string :=
  match json r with
  | Some (Data _ (Some o)) => o !! k
  | _ => None
  end.

(** The responses on which the second part of the handler throws: a body
    that is not JSON; or, the transport having succeeded, a body without
    [statusCode], or one that passes the check on [statusCode] and has no
    [outputs]. *)
Definition throws (r : Response) : bool :=
  match json r with
  | None => true
  | Some d =>
      response_ok (http_status r) &&
      match d with
      | Falsy => false
      | Data None _ => true
      | Data (Some statusCode) outs =>
          startsWith (Number_toString statusCode) "2" &&
          match outs with None => true | Some _ => false end
      end
  end.

(** The failed conversions of a format [f], among the responses whose body
    parses: the transport failed; or the body is falsy; or its [statusCode],
    a three-digit HTTP status, is not a 2xx; or both layers report success
    and the body's [outputs] has no non-empty payload under the key of [f]. *)
Inductive ConversionFailure (f : string) : Response -> Prop :=
| failure_transport st d :
    response_ok st = false ->
    ConversionFailure f {| http_status := st; json := Some d |}
| failure_falsy st :
    ConversionFailure f {| http_status := st; json := Some Falsy |}
| failure_statusCode st sc outs :
    100 <= sc <= 999 -> ~ (200 <= sc <= 299) ->
    ConversionFailure f {| http_status := st; json := Some (Data (Some sc) outs) |}
| failure_empty st sc o :
    response_ok st = true -> 200 <= sc <= 299 ->
    truthy (o !! key f) = false ->
    ConversionFailure f {| http_status := st; json := Some (Data (Some sc) (Some o)) |}.

End DownloadButton.

(** ** Concrete inputs *)

Module Examples.
Import DownloadButton.

(** An implementation of [$lib] to run the flow on concrete inputs; no
    result shown on them depends on the choice. *)
Definition example_lib : Lib :=
  {| base64ToBlob := fun b64 => match b64 with Some s => s | None => "" end;
     toKebabCase := fun s => s;
     AUTH_COOKIE_NAME := "session";
     endpoints_convert := fun f => "upstream:/file/conversion/gltf/" +:+ f |}.

(** A generation result that holds its canonical source only. *)
Definition fresh : Component :=
  mount "bracket" "" {[ "source.gltf" := Some "Z2xURg==" ]}.

(** One that also holds a converted [stl]. *)
Definition with_stl : Component :=
  mount "bracket" ""
    (<[ "source.stl" := Some "c29saWQ=" ]> {[ "source.gltf" := Some "Z2xURg==" ]}).

(** A gateway's answer whose body is not JSON. *)
Definition bad_gateway : Response := {| http_status := 502; json := None |}.

(** The answer to a conversion to [obj]. *)
Definition obj_converted : Response :=
  {| http_status := 200;
     json := Some (Data (Some 200) (Some {[ "source.obj" := "byAx" ]})) |}.

(** A race on a result that holds [stl]: [obj] is selected and requested,
    then [stl] is selected and served from the cache while the request for
    [obj] is still in flight. *)
Definition racing : World :=
  @run example_lib [Select "obj"; Select "stl"] (display with_stl).

(** A result that came with its source text. *)
Definition with_code : Component :=
  mount "bracket" "startSketchOn('XY')" {[ "source.gltf" := Some "Z2xURg==" ]}.

End Examples.

(** ** [routes/api/convert/[output_format]/+server.ts] *)

Module ConvertProxy.
Import Js Endpoints.

(** A parsed JSON value. *)
#[warnings="-register-all"]
Inductive Json :=
| JNull
| JBool (b : bool)
| JNum (n : Z)
| JStr (s : string)
| JArr (l : list Json)
| JObj (m : gmap string Json).

(** [$lib/env]. *)
Record Env := {
  PROD : bool;
  VITE_API_TOKEN : option string
}.

(** What the handler takes from its [RequestEvent]: the cookie jar, the
    text of the request body and [params.output_format]. *)
Record RequestEvent := {
  cookies : gmap string string;
  request_text : string;
  output_format : option string
}.

(** The request the handler sends to the conversion service. *)
Record UpstreamRequest := {
  up_url : string;
  up_method : string;
  up_headers : list (string * string);
  up_body : string
}.

(** The service's answer: [response.status] and the value of
    [response.json()], read at the type [FileConversion] (an object);
    [None] when the body is not JSON. *)
Record UpstreamResponse := {
  up_status : Z;
  up_json : option (gmap string Json)
}.

Inductive Outcome :=
| HttpError (status : Z) (message : string) (** [throw error(status, message)] *)
| JsonResponse (body : gmap string Json)    (** [return json(body)] *)
| Uncaught.                                 (** [response.json()] rejected *)

(** Line 13. *)
Definition token `{Lib} (env : Env) (ev : RequestEvent) : option string :=
  if PROD env then cookies ev !! AUTH_COOKIE_NAME else VITE_API_TOKEN env.

(** [Object.keys(CADMIMETypes).some((mimeType) => output_format === mimeType)]. *)
Definition validFormat (output_format : string) : bool :=
  existsb (fun mimeType => bool_decide (output_format = mimeType)) keys.

Definition upstreamRequest `{Lib} (tok body fmt : string) : UpstreamRequest :=
  {| up_url := endpoints_convert fmt;
     up_method := "POST";
     up_headers := [("Content-Type", "application/octect-stream");
                    ("Authorization", "Bearer " +:+ tok)];
     up_body := body |}.

(** The object literal [{ statusCode: response.status, ...data }]: the
    spread comes second, so a property of [data] wins over one written
    before it. *)
Definition withStatusCode (status : Z) (data : gmap string Json) : gmap string Json :=
  data ∪ {[ "statusCode" := JNum status ]}.

(** [POST].  [fetch] is the handler's own [fetch] argument; the second
    component lists the upstream requests the handler made. *)
Definition POST `{Lib} (env : Env) (fetch : UpstreamRequest -> UpstreamResponse)
    (ev : RequestEvent) : Outcome * list UpstreamRequest :=
  match token env ev with
  | None => (HttpError 401 "You must be logged in to use this API.", [])
  | Some tok =>
      if negb (truthy_str tok)
      then (HttpError 401 "You must be logged in to use this API.", [])
      else
        let body := request_text ev in
        if negb (truthy_str body)
        then (HttpError 422 "Please include the model as your fetch request body.", [])
        else
          match output_format ev with
          | None => (HttpError 422 "Please include the output format in the URL.", [])
          | Some fmt =>
              if negb (truthy_str fmt)
              then (HttpError 422 "Please include the output format in the URL.", [])
              else if negb (validFormat fmt)
              then (HttpError 422 "Invalid output format.", [])
              else
                let req := upstreamRequest tok body fmt in
                let response := fetch req in
                match up_json response with
                | None => (Uncaught, [req])
                | Some data =>
                    (JsonResponse (withStatusCode (up_status response) data), [req])
                end
          end
  end.

(** *** Reading a request *)

(** A request that passes the four guards of lines 14-22 with credential
    [tok] and format [fmt]. *)
Definition passes_validation `{Lib} (env : Env) (ev : RequestEvent)
    (tok fmt : string) : Prop :=
  token env ev = Some tok /\ tok <> ""
  /\ request_text ev <> ""
  /\ output_format ev = Some fmt /\ supported fmt.

(** No credential: [token] is [undefined] or the empty string. *)
Definition no_credential `{Lib} (env : Env) (ev : RequestEvent) : Prop :=
  truthy (token env ev) = false.

(** A request the guards of lines 18-22 refuse: the body is empty, or the
    path parameter is missing, or it is not a key of [CADMIMETypes]. *)
Definition malformed (ev : RequestEvent) : Prop :=
  request_text ev = ""
  \/ match output_format ev with
     | None => True
     | Some fmt => ~ supported fmt
     end.

(** [headers[name]] of an upstream request. *)
Definition header (req : UpstreamRequest) (name : string) : option string :=
  assoc (up_headers req) name.

End ConvertProxy.

(** ** The generation-view proxy module *)

Module ViewProxy.

(** What an identifier can be bound to, as far as the module's statements
    tell values apart. *)
Inductive Value :=
| VUndefined
| VStr (s : string)
| VRef (name : string).  (** an imported binding, a function, a built-in object *)

Inductive JsError := ReferenceError (name : string).

(** Identifier resolution through the scope chain, innermost scope first. *)
Fixpoint resolve (chain : list (gmap string Value)) (x : string) : Value + JsError :=
  match chain with
  | [] => inr (ReferenceError x)
  | scope :: outer =>
      match scope !! x with
      | Some v => inl v
      | None => resolve outer x
      end
  end.

(** The module scope: the value imports of lines 1-4 and the [const] of
    line 11.  The type-only imports and [LoadResponse] are erased. *)
Definition module_scope : gmap string Value :=
  list_to_map
    [ ("AUTH_COOKIE_NAME", VRef "AUTH_COOKIE_NAME"); ("endpoints", VRef "endpoints");
      ("error", VRef "error"); ("json", VRef "json"); ("env", VRef "env");
      ("POST", VRef "POST") ].

(** [$lib/env] as this module reads it. *)
Record Env := {
  MODE : string;
  VITE_API_TOKEN : option string
}.

(** Line 12, the handler's [token]. *)
Definition POST_token `{Lib} (env : Env) (cookies : gmap string string) : option string :=
  if decide (MODE env = "production") then cookies !! AUTH_COOKIE_NAME else VITE_API_TOKEN env.

(** The scope of [POST]'s body once it has run to its end: the destructured
    parameters and the four [const]s. *)
Definition handler_scope (token : option string) : gmap string Value :=
  list_to_map
    [ ("cookies", VRef "cookies"); ("fetch", VRef "fetch"); ("request", VRef "request");
      ("token", match token with Some t => VStr t | None => VUndefined end);
      ("body", VRef "body"); ("response", VRef "response"); ("data", VRef "data") ].

(** The statement [console.log("TOKEN:", token)] evaluated in a scope chain:
    the line it prints, or the error it throws. *)
Definition log_token (chain : list (gmap string Value)) : list Value + JsError :=
  match resolve chain "console" with
  | inr e => inr e
  | inl _ =>
      match resolve chain "token" with
      | inr e => inr e
      | inl v => inl [VStr "TOKEN:"; v]
      end
  end.

(** How the evaluation of the module ends: with its exports and what it
    printed, or with the error thrown. *)
Inductive Evaluation :=
| Evaluated (exports : list string) (console : list (list Value))
| Errored (e : JsError).

(** Evaluating the module: bind [POST] (line 11), then run line 32 in the
    module scope, whose parent is the global scope. *)
Definition evaluate (globals : gmap string Value) : Evaluation :=
  match log_token [module_scope; globals] with
  | inl line => Evaluated ["POST"] [line]
  | inr e => Errored e
  end.

(** The server calls the module's [POST] export for a request to the route;
    a module whose evaluation threw has no exports. *)
Definition handler_available (globals : gmap string Value) : bool :=
  match evaluate globals with
  | Evaluated exports _ => bool_decide ("POST" ∈ exports)
  | Errored _ => false
  end.

End ViewProxy.

(** ** Concrete requests to the proxies *)

Module ProxyExamples.
Import ConvertProxy.

(** A development environment with its fallback credential. *)
Definition dev : Env := {| PROD := false; VITE_API_TOKEN := Some "dev-token" |}.

(** A conversion of a glTF body to [stl]. *)
Definition to_stl : RequestEvent :=
  {| cookies := ∅; request_text := "{}"; output_format := Some "stl" |}.

(** A service that answers every request with a finished conversion. *)
Definition completed : gmap string Json :=
  <[ "status" := JStr "completed" ]> {[ "outputs" := JObj {[ "source.stl" := JStr "c29saWQ=" ]} ]}.

Definition service (_ : UpstreamRequest) : UpstreamResponse :=
  {| up_status := 201; up_json := Some completed |}.

(** A server's global scope, as far as the view module looks into it. *)
Definition node_globals : gmap string ViewProxy.Value :=
  {[ "console" := ViewProxy.VRef "console" ]}.

End ProxyExamples.

(** ** Further code of the three files *)

(** *** States of the download button *)

Module ExportStates.
Import Js DownloadButton.


(** The events that are not [onNavigate]. *)
Definition in_view (e : Event) : bool :=
  match e with Navigate => false | Select _ | Respond _ _ => true end.

(** A click on the anchor rendered from a state: the anchor is there
    ([ready]), its [href] and [download] are the state's [dataUrl] and
    [fileName], and it is the [kcl] URL of the source text or, for a concrete
    format, the URL of a non-empty payload that is the entry of the selected
    format. *)
Definition download_of `{Lib} (c : Component) (href name : string) : Prop :=
  href = dataUrl c /\ name = fileName c /\ status c = ready
  /\ (currentOutput c = "kcl"
        /\ href = "data:text/plain;charset=utf-8," +:+ encodeURIComponent (code c)
      \/ currentOutput c <> "kcl"
        /\ exists p, p <> "" /\ outputData c = Some p
             /\ get (outputs c) (key (currentOutput c)) = Some p
             /\ href = "data:" +:+ interpolate (Endpoints.mime (currentOutput c))
                        +:+ ";base64," +:+ p).

End ExportStates.

(** *** The [POST] handler of the generation-view proxy (lines 11-31) *)

Module ViewHandler.
Import Js.
Import ConvertProxy (Json, JNull, JBool, JNum, JStr, JArr, JObj).

(** [!v] is [false]: the truthiness of a parsed JSON value. *)
Definition truthy_json (v : Json) : bool :=
  match v with
  | JNull => false
  | JBool b => b
  | JNum n => negb (n =? 0)
  | JStr s => truthy_str s
  | JArr _ | JObj _ => true
  end.

(** [body?.id]: the property of an object; [undefined] on [null] and on
    every other value, none of which has a property [id]. *)
Definition body_id (body : Json) : option Json :=
  match body with
  | JObj m => m !! "id"
  | _ => None
  end.

(** What the handler takes from its [RequestEvent]: the cookie jar and the
    value of [request.json()], [None] when the body is not JSON. *)
Record RequestEvent := {
  cookies : gmap string string;
  request_json : option Json
}.

(** The request to the generation service: a [GET] with one header. *)
Record UpstreamRequest := {
  up_url : string;
  up_headers : list (string * string)
}.

Record UpstreamResponse := {
  up_status : Z;
  up_json : option Json
}.

Inductive Outcome :=
| HttpError (status : Z) (message : string)
| JsonResponse (status : Z) (body : Json)  (** [json({ status, body })] *)
| Uncaught.                                (** a [json()] call rejected *)

(** The message of line 16; the key is written in double quotes there. *)
Definition missing_id : string :=
  let q := String (ascii_of_N 34) EmptyString in
  "Please include a model ID under the " +:+ q +:+ "id" +:+ q +:+ " key.".

(** [POST].  [endpoints_view] is [endpoints.view] of [$lib/endpoints], which
    receives [body.id] as it is; [fetch] is the handler's own argument.  The
    second component lists the upstream requests made. *)
Definition POST `{Lib} (endpoints_view : Json -> string) (env : ViewProxy.Env)
    (fetch : UpstreamRequest -> UpstreamResponse) (ev : RequestEvent)
  : Outcome * list UpstreamRequest :=
  let token := ViewProxy.POST_token env (cookies ev) in
  match request_json ev with
  | None => (Uncaught, [])
  | Some body =>
      let id := body_id body in
      if negb (match id with Some v => truthy_json v | None => false end)
      then (HttpError 422 missing_id, [])
      else
        match token, id with
        | Some tok, Some v =>
            if negb (truthy_str tok)
            then (HttpError 401 "You must be logged in to use this API.", [])
            else
              let req := {| up_url := endpoints_view v;
                            up_headers := [("Authorization", "Bearer " +:+ tok)] |} in
              let response := fetch req in
              match up_json response with
              | None => (Uncaught, [req])
              | Some data => (JsonResponse (up_status response) data, [req])
              end
        | _, _ => (HttpError 401 "You must be logged in to use this API.", [])
        end
  end.

End ViewHandler.

(** *** The proxy's answer as the component reads it *)

Module Wire.
Import Js.
Import ConvertProxy (Json, JNull, JBool, JNum, JStr, JArr, JObj).

(** A JSON object of strings, as the conversion service sends [outputs]. *)
Definition of_strings (o : gmap string string) : Json := JObj (JStr <$> o).

Definition string_of (v : Json) : option string :=
  match v with JStr s => Some s | _ => None end.

(** The body of the proxy's answer read at the type [ConvertResponse]: the
    number under [statusCode] and the strings under [outputs].  Exact on
    bodies of that type. *)
Definition as_ConvertResponse (body : gmap string Json) : DownloadButton.ResponseData :=
  DownloadButton.Data
    (match body !! "statusCode" with Some (JNum n) => Some n | _ => None end)
    (match body !! "outputs" with Some (JObj m) => Some (omap string_of m) | _ => None end).

(** The component's request as the proxy's handler receives it: the
    cookies the browser attaches ([credentials: 'include']), the body as
    [request.text()] gives it (the bytes of a text body), and the format the
    router binds from the path. *)
Definition received (jar : gmap string string) (req : DownloadButton.Request)
  : ConvertProxy.RequestEvent :=
  {| ConvertProxy.cookies := jar;
     ConvertProxy.request_text := DownloadButton.body req;
     ConvertProxy.output_format := Endpoints.output_format_param (DownloadButton.url req) |}.

End Wire.

(** * Properties *)

(** ** Facts about the JavaScript primitives *)

Section JsFacts.
Import Js.

Lemma startsWith_2_three_digits (n : Z) :
  100 <= n <= 999 ->
  startsWith (Number_toString n) "2" = true <-> 200 <= n <= 299.
Proof.
  intros Hn.
  assert (Hall : forallb (fun k : nat =>
            Bool.eqb (startsWith (Number_toString (Z.of_nat k)) "2")
                     ((200 <=? Z.of_nat k) && (Z.of_nat k <=? 299)))
            (seq 100 900) = true) by (vm_compute; reflexivity).
  rewrite forallb_forall in Hall.
  specialize (Hall (Z.to_nat n)).
  rewrite Z2Nat.id in Hall by lia.
  assert (Hin : In (Z.to_nat n) (seq 100 900)) by (apply in_seq; lia).
  apply Hall in Hin. apply Bool.eqb_prop in Hin. rewrite Hin.
  rewrite andb_true_iff, !Z.leb_le. reflexivity.
Qed.

Lemma startsWith_2_of_2xx (n : Z) :
  200 <= n <= 299 -> startsWith (Number_toString n) "2" = true.
Proof. intros Hn. apply startsWith_2_three_digits; lia. Qed.

Lemma response_ok_iff (n : Z) : response_ok n = true <-> 200 <= n <= 299.
Proof. unfold response_ok. rewrite andb_true_iff, !Z.leb_le. reflexivity. Qed.

Lemma get_insert_eq (o : gmap string (option string)) (k : string) (v : option string) :
  get (<[k := v]> o) k = v.
Proof. unfold get. rewrite lookup_insert_eq. reflexivity. Qed.

Lemma truthy_str_false (s : string) : truthy_str s = false <-> s = "".
Proof. destruct s; simpl; split; congruence. Qed.

Lemma truthy_str_true (s : string) : truthy_str s = true <-> s <> "".
Proof. destruct s; simpl; split; congruence. Qed.

Lemma hex_roundtrip (c : ascii) :
  hex_value (hex_digit (N_of_ascii c / 16)) = Some (N_of_ascii c / 16)%N
  /\ hex_value (hex_digit (N_of_ascii c mod 16)) = Some (N_of_ascii c mod 16)%N.
Proof. destruct c as [[] [] [] [] [] [] [] []]; split; reflexivity. Qed.

Lemma unreserved_not_percent (c : ascii) : unreserved c = true -> c <> "%"%char.
Proof. intros Hc ->. discriminate Hc. Qed.

Lemma percent_decode_cons (c : ascii) (s : string) :
  c <> "%"%char ->
  percent_decode (String c s) =
  match percent_decode s with Some r => Some (String c r) | None => None end.
Proof.
  intros Hc. destruct c as [[] [] [] [] [] [] [] []]; try reflexivity.
  exfalso. apply Hc. reflexivity.
Qed.

(** Decoding the data part of the [kcl] URL gives the text back. *)
Lemma percent_decode_encodeURIComponent (s : string) :
  percent_decode (encodeURIComponent s) = Some s.
Proof.
  induction s as [|c s IH]; [reflexivity|].
  cbn [encodeURIComponent]. destruct (unreserved c) eqn:Hc.
  - rewrite percent_decode_cons by (apply unreserved_not_percent; exact Hc).
    rewrite IH. reflexivity.
  - cbn [percent_decode]. destruct (hex_roundtrip c) as [-> ->]. rewrite IH.
    f_equal. f_equal.
    rewrite <- (ascii_N_embedding c) at 3. f_equal.
    pose proof (N.div_mod (N_of_ascii c) 16). lia.
Qed.

End JsFacts.

(** ** The export flow of [DownloadButton] *)

Section ExportFlow.
Import Js Endpoints DownloadButton.
Context `{Lib}.

Lemma supported_cases (f : string) :
  supported f ->
  f = "fbx" \/ f = "glb" \/ f = "gltf" \/ f = "obj" \/ f = "ply" \/ f = "stl" \/ f = "step".
Proof.
  unfold supported, keys. cbn [map fst CADMIMETypes].
  rewrite !elem_of_cons, elem_of_nil. tauto.
Qed.

Lemma supported_not_kcl (f : string) : supported f -> f <> "kcl".
Proof. intros Hf. apply supported_cases in Hf. intuition (subst; discriminate). Qed.

Lemma supported_route_param (f : string) :
  supported f -> output_format_param (localConvert f) = Some f.
Proof.
  intros Hf. apply supported_cases in Hf.
  destruct Hf as [->|[->|[->|[->|[->|[->| ->]]]]]]; reflexivity.
Qed.

(** The handler's first part on a concrete format, by the state of its slot. *)
Lemma updateOutput_miss (c : Component) (f : string) :
  f <> "kcl" ->
  truthy (get (outputs c) (key f)) = false ->
  updateOutput f c =
    (set_status loading (set_currentOutput f c),
     [Fetch (convertRequest (set_status loading (set_currentOutput f c)))]).
Proof.
  intros Hf Hmiss. unfold updateOutput. cbn.
  destruct (decide (f = "kcl")) as [?|_]; [contradiction|].
  rewrite Hmiss. reflexivity.
Qed.

Lemma updateOutput_hit (c : Component) (f : string) :
  f <> "kcl" ->
  truthy (get (outputs c) (key f)) = true ->
  updateOutput f c =
    settle (set_outputData (get (outputs c) (key f))
              (set_status loading (set_currentOutput f c))).
Proof.
  intros Hf Hhit. unfold updateOutput. cbn.
  destruct (decide (f = "kcl")) as [?|_]; [contradiction|].
  rewrite Hhit. reflexivity.
Qed.

Lemma settle_truthy (c : Component) :
  truthy (outputData c) = true ->
  settle c = (set_status ready c, [click (set_status ready c)]).
Proof. intros Hd. unfold settle. cbn. rewrite Hd. reflexivity. Qed.

Lemma settle_falsy (c : Component) :
  truthy (outputData c) = false ->
  settle c = (set_status failed c, []).
Proof. intros Hd. unfold settle. cbn. rewrite Hd. reflexivity. Qed.

(** C1. Selecting a supported concrete format whose slot of the outputs
    mapping is absent or empty issues exactly one conversion request and does
    nothing else: its body is [base64ToBlob(outputs['source.gltf'])], the
    decoded canonical source, and the path parameter of its URL is the
    format.  The status is [loading] while it is in flight. *)
Theorem select_uncached_issues_one_request (w : World) (f : string) :
  supported f ->
  truthy (get (outputs (comp w)) (key f)) = false ->
  exists req : Request,
    trace (step (Select f) w) = trace w ++ [Fetch req]
    /\ inflight (step (Select f) w) = inflight w ++ [req]
    /\ body req = base64ToBlob (get (outputs (comp w)) "source.gltf")
    /\ url req = localConvert f
    /\ output_format_param (url req) = Some f
    /\ method req = "POST"
    /\ status (comp (step (Select f) w)) = loading
    /\ outputs (comp (step (Select f) w)) = outputs (comp w).
Proof.
  intros Hf Hmiss.
  pose proof (supported_not_kcl f Hf) as Hk.
  exists (convertRequest (set_status loading (set_currentOutput f (comp w)))).
  unfold step. rewrite (updateOutput_miss _ _ Hk Hmiss). cbn.
  repeat split. apply supported_route_param. exact Hf.
Qed.

(** C2. Selecting a concrete format whose slot holds a non-empty payload
    ends in [ready] with one download of that payload and no request; doing
    it a second time again adds a download and no request, so the requests
    made stay those made before the format was cached. *)
Theorem select_cached_is_ready_without_request (w : World) (f : string) :
  f <> "kcl" ->
  truthy (get (outputs (comp w)) (key f)) = true ->
  let w1 := step (Select f) w in
  let w2 := step (Select f) w1 in
  status (comp w1) = ready
  /\ outputData (comp w1) = get (outputs (comp w)) (key f)
  /\ trace w1 = trace w ++ [click (comp w1)]
  /\ inflight w1 = inflight w
  /\ outputs (comp w1) = outputs (comp w)
  /\ status (comp w2) = ready
  /\ inflight w2 = inflight w
  /\ fetches (trace w2) = fetches (trace w)
  /\ clicks (trace w2) = clicks (trace w) ++ clicks [click (comp w1); click (comp w2)].
Proof.
  intros Hf Hhit w1 w2.
  assert (E1 : w1 = {| comp := set_status ready (set_outputData (get (outputs (comp w)) (key f))
                         (set_status loading (set_currentOutput f (comp w))));
                       inflight := inflight w;
                       trace := trace w ++ [click (set_status ready (set_outputData
                         (get (outputs (comp w)) (key f))
                         (set_status loading (set_currentOutput f (comp w)))))] |}).
  { subst w1. unfold step. rewrite (updateOutput_hit _ _ Hf Hhit).
    rewrite settle_truthy by exact Hhit. cbn. rewrite app_nil_r. reflexivity. }
  assert (Hhit1 : truthy (get (outputs (comp w1)) (key f)) = true)
    by (rewrite E1; exact Hhit).
  assert (E2 : w2 = {| comp := set_status ready (set_outputData (get (outputs (comp w1)) (key f))
                         (set_status loading (set_currentOutput f (comp w1))));
                       inflight := inflight w1;
                       trace := trace w1 ++ [click (set_status ready (set_outputData
                         (get (outputs (comp w1)) (key f))
                         (set_status loading (set_currentOutput f (comp w1)))))] |}).
  { subst w2. unfold step. rewrite (updateOutput_hit _ _ Hf Hhit1).
    rewrite settle_truthy by exact Hhit1. cbn. rewrite app_nil_r. reflexivity. }
  rewrite E2. rewrite E1. cbn.
  repeat split.
  - unfold fetches. rewrite !omap_app. cbn. rewrite !app_nil_r. reflexivity.
  - unfold clicks. rewrite !omap_app. cbn. rewrite <- app_assoc. reflexivity.
Qed.

Lemma updateOutput_kcl (c : Component) :
  let c1 := set_status (if truthy_str (code c) then ready else failed)
              (set_status loading (set_currentOutput "kcl" c)) in
  updateOutput "kcl" c = (c1, if truthy_str (code c) then [click c1] else []).
Proof.
  unfold updateOutput. cbn.
  destruct (decide ("kcl" = "kcl")) as [_|?]; [reflexivity|contradiction].
Qed.

(** C6. Selecting the [kcl] pseudo-format never issues a request.  Without
    source text the status ends [failed] and nothing is downloaded; with
    source text it ends [ready] and the one download is a [data:] URL of
    media type [text/plain] whose data decodes to exactly that text. *)
Theorem select_kcl_never_fetches (w : World) :
  let w' := step (Select "kcl") w in
  inflight w' = inflight w
  /\ fetches (trace w') = fetches (trace w)
  /\ (code (comp w) = "" -> status (comp w') = failed /\ trace w' = trace w)
  /\ (code (comp w) <> "" ->
        status (comp w') = ready
        /\ trace w' = trace w ++ [Click (dataUrl (comp w')) (fileName (comp w'))]
        /\ data_url_parts (dataUrl (comp w'))
             = Some ("text/plain;charset=utf-8", encodeURIComponent (code (comp w)))
        /\ percent_decode (encodeURIComponent (code (comp w))) = Some (code (comp w))).
Proof.
  intros w'. subst w'. unfold step. rewrite updateOutput_kcl.
  destruct (truthy_str (code (comp w))) eqn:Hcode; cbn.
  - apply truthy_str_true in Hcode.
    repeat split; try contradiction.
    + rewrite app_nil_r. reflexivity.
    + unfold fetches. rewrite omap_app. cbn. rewrite app_nil_r. reflexivity.
    + apply percent_decode_encodeURIComponent.
  - apply truthy_str_false in Hcode.
    repeat split; try contradiction; rewrite ?app_nil_r; reflexivity.
Qed.

(** The handler's second part when the response is a success on both
    layers and carries a non-empty payload for the selected format. *)
Lemma onResponse_success (c : Component) (r : Response) (sc : Z)
    (o : gmap string string) (p : string) :
  response_ok (http_status r) = true ->
  json r = Some (Data (Some sc) (Some o)) ->
  200 <= sc <= 299 ->
  o !! key (currentOutput c) = Some p ->
  truthy_str p = true ->
  let c' := set_status ready (set_outputData (Some p)
              (set_outputs (<[key (currentOutput c) := Some p]> (outputs c)) c)) in
  onResponse r c = (c', [click c'], Returned).
Proof.
  intros Hok Hjson Hsc Hp Htruthy c'. subst c'.
  unfold onResponse. rewrite Hjson, Hok. cbn.
  rewrite (startsWith_2_of_2xx sc Hsc). cbn.
  rewrite Hp. unfold get. rewrite lookup_insert_eq.
  cbn [truthy]. rewrite Htruthy. reflexivity.
Qed.

Lemma inflight_last (l : list Request) (req : Request) :
  (l ++ [req]) !! length l = Some req /\ delete (length l) (l ++ [req]) = l.
Proof.
  split.
  - apply list_lookup_middle. reflexivity.
  - rewrite (delete_middle l [] req). apply app_nil_r.
Qed.

(** C4. A format is selected and causes a request; the response is a
    success on both layers and holds a non-empty payload under the format's
    key.  Then the payload is written into the shared mapping at that key,
    the status ends [ready], and exactly one download happens: of that
    payload, under the format's content type.  No other request is made. *)
Theorem converted_payload_is_cached_and_downloaded (w : World) (f : string)
    (r : Response) (sc : Z) (o : gmap string string) (p : string) :
  supported f ->
  truthy (get (outputs (comp w)) (key f)) = false ->
  response_ok (http_status r) = true ->
  json r = Some (Data (Some sc) (Some o)) ->
  200 <= sc <= 299 ->
  o !! key f = Some p ->
  p <> "" ->
  let w1 := step (Select f) w in
  let w2 := step (Respond (length (inflight w)) r) w1 in
  outputs (comp w2) = <[key f := Some p]> (outputs (comp w))
  /\ get (outputs (comp w2)) (key f) = Some p
  /\ status (comp w2) = ready
  /\ trace w2 = trace w1 ++ [Click (dataUrl (comp w2)) (fileName (comp w2))]
  /\ (exists m, mime f = Some m /\ dataUrl (comp w2) = "data:" +:+ m +:+ ";base64," +:+ p)
  /\ length (clicks (trace w2)) = S (length (clicks (trace w)))
  /\ length (fetches (trace w2)) = S (length (fetches (trace w)))
  /\ inflight w2 = inflight w.
Proof.
  intros Hf Hmiss Hok Hjson Hsc Hp Hne w1 w2.
  pose proof (supported_not_kcl f Hf) as Hk.
  apply truthy_str_true in Hne.
  set (c1 := set_status loading (set_currentOutput f (comp w))).
  assert (E1 : w1 = {| comp := c1; inflight := inflight w ++ [convertRequest c1];
                       trace := trace w ++ [Fetch (convertRequest c1)] |}).
  { subst w1. unfold step. rewrite (updateOutput_miss _ _ Hk Hmiss). reflexivity. }
  destruct (inflight_last (inflight w) (convertRequest c1)) as [Hlook Hdel].
  assert (Hcur : currentOutput c1 = f) by reflexivity.
  pose proof (onResponse_success c1 r sc o p Hok Hjson Hsc) as Hresp.
  rewrite Hcur in Hresp. specialize (Hresp Hp Hne). cbv zeta in Hresp.
  subst w2. rewrite E1. unfold step. cbn [inflight comp trace].
  rewrite Hlook, Hresp, Hdel. subst c1. cbn.
  split; [reflexivity|]. split; [unfold get; rewrite lookup_insert_eq; reflexivity|].
  split; [reflexivity|]. split; [reflexivity|].
  split.
  { unfold dataUrl, currentMimeType. cbn.
    destruct (decide (f = "kcl")) as [?|_]; [contradiction|].
    apply supported_cases in Hf.
    destruct Hf as [->|[->|[->|[->|[->|[->| ->]]]]]]; eexists; split; reflexivity. }
  unfold clicks, fetches. rewrite !omap_app, !length_app. cbn.
  repeat split; lia.
Qed.

(** The handler's second part on a failed conversion of the selected
    format: the status becomes [failed], nothing is downloaded or requested,
    and only the slot of the selected format can have been written, with
    nothing that counts as a payload. *)
Lemma onResponse_failure (c : Component) (r : Response) :
  ConversionFailure (currentOutput c) r ->
  truthy (get (outputs c) (key (currentOutput c))) = false ->
  exists c', onResponse r c = (c', [], Returned)
    /\ status c' = failed
    /\ currentOutput c' = currentOutput c
    /\ truthy (get (outputs c') (key (currentOutput c))) = false
    /\ (forall k, k <> key (currentOutput c) -> outputs c' !! k = outputs c !! k).
Proof.
  intros Hfail Hmiss. unfold onResponse.
  destruct Hfail as [st d Hst | st | st sc outs Hrange Hnot | st sc o Hst Hsc Hempty]; cbn.
  - rewrite Hst. cbn. eexists. repeat split. exact Hmiss.
  - destruct (response_ok st); cbn; eexists; repeat split; exact Hmiss.
  - assert (Hsw : startsWith (Number_toString sc) "2" = false).
    { destruct (startsWith (Number_toString sc) "2") eqn:E; [|reflexivity].
      apply startsWith_2_three_digits in E; [contradiction|exact Hrange]. }
    destruct (response_ok st); cbn; rewrite ?Hsw; cbn; eexists; repeat split; exact Hmiss.
  - rewrite Hst, (startsWith_2_of_2xx sc Hsc). cbn.
    rewrite !get_insert_eq, Hempty. eexists. split; [reflexivity|]. cbn.
    split; [reflexivity|]. split; [reflexivity|]. split.
    + unfold get. rewrite lookup_insert_eq. exact Hempty.
    + intros k Hk. rewrite lookup_insert_ne by congruence. reflexivity.
Qed.

(** C3, as the code has it.  A format is selected and causes a request, and
    the response is a failed conversion whose body parses: the transport
    failed, or the body is falsy, or its [statusCode] (a three-digit HTTP
    status) is not a 2xx, or both layers report success and no non-empty
    payload comes under the format's key.  Then the status ends [failed],
    the format's slot holds no payload and no other slot changed, nothing is
    downloaded, and no further request is made. *)
Theorem failed_conversion_ends_failed (w : World) (f : string) (r : Response) :
  supported f ->
  truthy (get (outputs (comp w)) (key f)) = false ->
  ConversionFailure f r ->
  let w1 := step (Select f) w in
  let w2 := step (Respond (length (inflight w)) r) w1 in
  status (comp w2) = failed
  /\ truthy (get (outputs (comp w2)) (key f)) = false
  /\ (forall k, k <> key f -> outputs (comp w2) !! k = outputs (comp w) !! k)
  /\ trace w2 = trace w1
  /\ inflight w2 = inflight w.
Proof.
  intros Hf Hmiss Hfail w1 w2.
  pose proof (supported_not_kcl f Hf) as Hk.
  set (c1 := set_status loading (set_currentOutput f (comp w))).
  assert (E1 : w1 = {| comp := c1; inflight := inflight w ++ [convertRequest c1];
                       trace := trace w ++ [Fetch (convertRequest c1)] |}).
  { subst w1. unfold step. rewrite (updateOutput_miss _ _ Hk Hmiss). reflexivity. }
  destruct (inflight_last (inflight w) (convertRequest c1)) as [Hlook Hdel].
  destruct (onResponse_failure c1 r Hfail Hmiss) as (c' & Hresp & Hst & _ & Hslot & Hother).
  subst w2. rewrite E1. unfold step. cbn [inflight comp trace].
  rewrite Hlook, Hresp, Hdel. cbn [inflight comp trace].
  rewrite app_nil_r. repeat split; assumption.
Qed.

(** The handler's second part when it throws: the component is as it was. *)
Lemma onResponse_throws (c : Component) (r : Response) :
  throws r = true -> exists e, onResponse r c = (c, [], Rejected e).
Proof.
  unfold throws, onResponse. destruct (json r) as [d|]; [|eauto].
  destruct (response_ok (http_status r)); [|discriminate]. cbn.
  destruct d as [|[sc|] outs]; [discriminate| |eauto].
  destruct (startsWith (Number_toString sc) "2"); [|discriminate]. cbn.
  destruct outs; [discriminate|eauto].
Qed.

(** Closes the cases of a response that writes to no slot and has no
    effect: the trace grows by nothing, the rest is as assumed. *)
Ltac untouched := cbn; rewrite app_nil_r; repeat split; assumption.

Lemma key_inj (a b : string) : key a = key b -> a = b.
Proof. unfold key. apply String.app_inj. Qed.

(** C5, as the code has it.  The response to a request made for format [A]
    arrives while the selected format is another one, [B].  The handler has
    no memory of [A] and applies the response to [B]: nothing is stored
    under the key of [A]; if the response carries no non-empty payload under
    the key of [B], as the answer to a conversion to [A] does, nothing is
    downloaded and nothing requested.  The status is not protected: unless
    the handler throws, it becomes [failed]. *)
Theorem stale_response_is_applied_to_selected_format (w : World) (i : nat)
    (req : Request) (A B : string) (r : Response) :
  inflight w !! i = Some req ->
  url req = localConvert A ->
  currentOutput (comp w) = B ->
  A <> B ->
  truthy (payload r (key B)) = false ->
  let w' := step (Respond i r) w in
  trace w' = trace w
  /\ outputs (comp w') !! key A = outputs (comp w) !! key A
  /\ status (comp w') = (if throws r then status (comp w) else failed)
  /\ currentOutput (comp w') = B.
Proof.
  intros Hreq _ HB Hne Hpay w'. subst w'. unfold step. rewrite Hreq.
  assert (HkAB : key B <> key A) by (intros E; apply key_inj in E; congruence).
  unfold payload in Hpay. unfold throws, onResponse.
  destruct (json r) as [d|]; [|untouched].
  destruct (response_ok (http_status r)); cbn; [|untouched].
  destruct d as [|[sc|] outs]; cbn; [untouched| |untouched].
  destruct (startsWith (Number_toString sc) "2"); cbn; [|untouched].
  destruct outs as [o|]; cbn; [|untouched].
  rewrite HB, get_insert_eq, Hpay. cbn.
  rewrite app_nil_r. repeat split; try assumption.
  rewrite lookup_insert_ne by exact HkAB. reflexivity.
Qed.

End ExportFlow.

(** ** The flow on concrete inputs *)

Section ExportFlowOnExamples.
Import Js Endpoints DownloadButton Examples.
Existing Instance example_lib.

Lemma stl_supported : supported "stl".
Proof. unfold supported, keys. cbn. set_solver. Qed.

Lemma obj_supported : supported "obj".
Proof. unfold supported, keys. cbn. set_solver. Qed.

(** Selecting [stl] on a fresh result: one request that carries the source. *)
Lemma select_uncached_issues_one_request_witness :
  supported "stl"
  /\ truthy (get (outputs fresh) (key "stl")) = false
  /\ exists req : Request,
       trace (step (Select "stl") (display fresh)) = [Fetch req]
       /\ body req = base64ToBlob (Some "Z2xURg==")
       /\ output_format_param (url req) = Some "stl".
Proof.
  split; [exact stl_supported|]. split; [reflexivity|].
  destruct (select_uncached_issues_one_request (display fresh) "stl" stl_supported eq_refl)
    as (req & Htrace & _ & Hbody & _ & Hparam & _).
  exists req. split; [exact Htrace|]. split; [exact Hbody|exact Hparam].
Defined.

(** Selecting [stl] when it is cached, twice: two downloads, no request. *)
Lemma select_cached_is_ready_without_request_witness :
  "stl" <> "kcl"
  /\ truthy (get (outputs with_stl) (key "stl")) = true
  /\ status (comp (run [Select "stl"; Select "stl"] (display with_stl))) = ready
  /\ fetches (trace (run [Select "stl"; Select "stl"] (display with_stl))) = [].
Proof.
  assert (Hk : "stl" <> "kcl") by discriminate.
  split; [exact Hk|]. split; [reflexivity|].
  destruct (select_cached_is_ready_without_request (display with_stl) "stl" Hk eq_refl)
    as (_ & _ & _ & _ & _ & Hst & _ & Hfetch & _).
  split; [exact Hst|exact Hfetch].
Defined.

(** [kcl] with and without source text. *)
Example select_kcl_on_examples :
  step (Select "kcl") (display with_code)
    = {| comp := set_status ready (set_currentOutput "kcl" with_code);
         inflight := [];
         trace := [Click "data:text/plain;charset=utf-8,startSketchOn('XY')" "bracket.kcl"] |}
  /\ status (comp (step (Select "kcl") (display fresh))) = failed
  /\ trace (step (Select "kcl") (display fresh)) = []
  /\ In "kcl" (availableFormats with_code)
  /\ ~ In "kcl" (availableFormats fresh).
Proof.
  repeat split. - cbn. tauto. - cbn. intuition discriminate.
Qed.

(** A conversion to [obj] that succeeds. *)
Lemma converted_payload_is_cached_and_downloaded_witness :
  let w := run [Select "obj"; Respond 0 obj_converted] (display fresh) in
  get (outputs (comp w)) "source.obj" = Some "byAx"
  /\ status (comp w) = ready
  /\ length (clicks (trace w)) = 1%nat.
Proof.
  assert (Hp : "byAx" <> "") by discriminate.
  destruct (converted_payload_is_cached_and_downloaded (display fresh) "obj" obj_converted
              200 {[ "source.obj" := "byAx" ]} "byAx"
              obj_supported eq_refl eq_refl eq_refl ltac:(lia) eq_refl Hp)
    as (_ & Hget & Hst & _ & _ & Hclicks & _).
  split; [exact Hget|]. split; [exact Hst|exact Hclicks].
Defined.

(** A conversion to [obj] that the service refuses. *)
Lemma failed_conversion_ends_failed_witness :
  let r := {| http_status := 200; json := Some (Data (Some 500) None) |} in
  let w := run [Select "obj"; Respond 0 r] (display fresh) in
  ConversionFailure "obj" r
  /\ status (comp w) = failed
  /\ truthy (get (outputs (comp w)) (key "obj")) = false
  /\ clicks (trace w) = [].
Proof.
  assert (Hfail : ConversionFailure "obj"
            {| http_status := 200; json := Some (Data (Some 500) None) |})
    by (apply failure_statusCode; lia).
  destruct (failed_conversion_ends_failed (display fresh) "obj" _ obj_supported eq_refl Hfail)
    as (Hst & Hslot & _ & Htrace & _).
  split; [exact Hfail|]. split; [exact Hst|]. split; [exact Hslot|].
  cbv zeta. unfold run. cbn [foldl]. cbv zeta in Htrace.
  change (length (inflight (display fresh))) with 0%nat in Htrace.
  rewrite Htrace. reflexivity.
Defined.

(** C3 as stated fails where the body cannot be parsed: [response.json()]
    rejects before the handler looks at the response, so the status stays
    [loading] instead of ending [failed]. *)
Lemma unparseable_body_leaves_loading :
  let w1 := step (Select "obj") (display fresh) in
  let w2 := step (Respond 0 bad_gateway) w1 in
  length (inflight w1) = 1%nat
  /\ json bad_gateway = None
  /\ response_ok (http_status bad_gateway) = false
  /\ status (comp w2) = loading
  /\ inflight w2 = [].
Proof. cbv zeta. repeat split. Qed.

(** C5 as stated fails: when the answer for [obj] arrives while [stl] is
    selected and [ready], the status is overwritten with [failed]. *)
Lemma stale_response_overwrites_status :
  (exists req, inflight racing = [req] /\ url req = localConvert "obj")
  /\ currentOutput (comp racing) = "stl"
  /\ status (comp racing) = ready
  /\ status (comp (step (Respond 0 obj_converted) racing)) = failed.
Proof. split; [eexists; split; reflexivity|]. repeat split. Qed.

(** The same arrival on the general statement: no download, and nothing
    stored for [obj]. *)
Lemma stale_response_is_applied_to_selected_format_witness :
  "obj" <> "stl"
  /\ truthy (payload obj_converted (key "stl")) = false
  /\ trace (step (Respond 0 obj_converted) racing) = trace racing
  /\ outputs (comp (step (Respond 0 obj_converted) racing)) !! key "obj" = None.
Proof.
  assert (Hne : "obj" <> "stl") by discriminate.
  split; [exact Hne|]. split; [reflexivity|].
  destruct (stale_response_is_applied_to_selected_format racing 0
              (convertRequest (set_status loading (set_currentOutput "obj" with_stl)))
              "obj" "stl" obj_converted eq_refl eq_refl eq_refl Hne eq_refl)
    as (Htrace & Hslot & _).
  split; [exact Htrace|]. rewrite Hslot. reflexivity.
Defined.

End ExportFlowOnExamples.

(** ** The conversion proxy *)

Section Proxy.
Import Js Endpoints ConvertProxy.
Context `{Lib}.

Lemma validFormat_supported (fmt : string) : validFormat fmt = true <-> supported fmt.
Proof.
  unfold validFormat, supported. rewrite existsb_exists. split.
  - intros (k & Hin & Hk). apply bool_decide_eq_true in Hk. subst k.
    apply list_elem_of_In. exact Hin.
  - intros Hin. exists fmt. split; [apply list_elem_of_In; exact Hin|].
    apply bool_decide_eq_true. reflexivity.
Qed.

Lemma supported_truthy (fmt : string) : supported fmt -> truthy_str fmt = true.
Proof.
  unfold supported, keys. cbn [map fst CADMIMETypes].
  rewrite !elem_of_cons, elem_of_nil. intuition (subst; reflexivity).
Qed.

(** Past the guards the handler makes its one upstream call and answers
    from the result. *)
Lemma POST_valid (env : Env) (fetch : UpstreamRequest -> UpstreamResponse)
    (ev : RequestEvent) (tok fmt : string) :
  passes_validation env ev tok fmt ->
  let req := upstreamRequest tok (request_text ev) fmt in
  POST env fetch ev =
    (match up_json (fetch req) with
     | None => Uncaught
     | Some data => JsonResponse (withStatusCode (up_status (fetch req)) data)
     end, [req]).
Proof.
  intros (Htok & Hne & Hbody & Hfmt & Hsup) req. subst req. unfold POST.
  rewrite Htok, Hfmt.
  apply truthy_str_true in Hne, Hbody. rewrite Hne, Hbody.
  rewrite (supported_truthy fmt Hsup).
  apply validFormat_supported in Hsup. rewrite Hsup. cbn.
  destruct (up_json _); reflexivity.
Qed.

(** C7. Before any upstream call: without a credential the proxy rejects
    with 401; with a credential, a request whose body is empty, whose format
    parameter is missing or whose format is not a key of [CADMIMETypes] is
    rejected with 422; such a request is rejected with a 4xx whether or not
    there is a credential.  In each case no upstream request is made. *)
Theorem proxy_rejects_before_upstream (env : Env)
    (fetch : UpstreamRequest -> UpstreamResponse) (ev : RequestEvent) :
  (no_credential env ev ->
     POST env fetch ev = (HttpError 401 "You must be logged in to use this API.", []))
  /\ (~ no_credential env ev -> malformed ev ->
       exists message, POST env fetch ev = (HttpError 422 message, []))
  /\ (malformed ev ->
       exists status message,
         POST env fetch ev = (HttpError status message, []) /\ 400 <= status <= 499).
Proof.
  assert (H401 : no_credential env ev ->
            POST env fetch ev = (HttpError 401 "You must be logged in to use this API.", [])).
  { unfold no_credential, POST. destruct (token env ev) as [tok|]; [|reflexivity].
    cbn. intros ->. reflexivity. }
  assert (H422 : ~ no_credential env ev -> malformed ev ->
            exists message, POST env fetch ev = (HttpError 422 message, [])).
  { unfold no_credential, malformed, POST.
    destruct (token env ev) as [tok|]; cbn [truthy]; [|congruence].
    destruct (truthy_str tok); [|congruence]. cbn [negb]. intros _ Hbad.
    destruct (truthy_str (request_text ev)) eqn:Hbody; cbn [negb]; [|eauto].
    destruct Hbad as [Hempty|Hfmt]; [apply truthy_str_false in Hempty; congruence|].
    destruct (output_format ev) as [fmt|]; [|eauto].
    destruct (truthy_str fmt); cbn [negb]; [|eauto].
    destruct (validFormat fmt) eqn:Hvalid; cbn [negb]; [|eauto].
    apply validFormat_supported in Hvalid. contradiction. }
  split; [exact H401|]. split; [exact H422|].
  intros Hbad. destruct (truthy (token env ev)) eqn:Htok.
  - destruct H422 as [message Hpost]; [unfold no_credential; congruence|exact Hbad|].
    exists 422, message. split; [exact Hpost|lia].
  - eexists _, _. split; [apply H401; exact Htok|lia].
Qed.

(** C8. Past the guards, when the service's body parses to a conversion
    result (an object; its type [FileConversion] has no property named
    [statusCode]), the proxy answers with a JSON object whose [statusCode]
    is the number [response.status] and which holds every property of the
    result, and nothing else. *)
Theorem proxy_response_mirrors_upstream_status (env : Env)
    (fetch : UpstreamRequest -> UpstreamResponse) (ev : RequestEvent)
    (tok fmt : string) (data : gmap string Json) :
  passes_validation env ev tok fmt ->
  let response := fetch (upstreamRequest tok (request_text ev) fmt) in
  up_json response = Some data ->
  data !! "statusCode" = None ->
  exists body,
    (POST env fetch ev).1 = JsonResponse body
    /\ body !! "statusCode" = Some (JNum (up_status response))
    /\ (forall k v, data !! k = Some v -> body !! k = Some v)
    /\ (forall k, k <> "statusCode" -> body !! k = data !! k).
Proof.
  intros Hvalid response Hjson Hfresh. subst response.
  rewrite (POST_valid env fetch ev tok fmt Hvalid). cbv zeta. rewrite Hjson. cbn.
  eexists. split; [reflexivity|]. unfold withStatusCode. repeat split.
  - rewrite lookup_union_r by exact Hfresh. apply lookup_singleton_eq.
  - intros k v Hk. apply lookup_union_Some_l. exact Hk.
  - intros k Hk. rewrite lookup_union, lookup_singleton_ne by congruence.
    destruct (data !! k); reflexivity.
Qed.

(** C9, on the code.  Past the guards the proxy makes exactly one upstream
    request; its body is the client's body and its [Authorization] header is
    [Bearer] followed by the credential.  Its [Content-Type], however, is
    the misspelt [application/octect-stream], which is not the octet-stream
    type that the component's own request declares. *)
Theorem proxy_upstream_request_content_type (env : Env)
    (fetch : UpstreamRequest -> UpstreamResponse) (ev : RequestEvent)
    (tok fmt : string) :
  passes_validation env ev tok fmt ->
  exists req,
    (POST env fetch ev).2 = [req]
    /\ up_body req = request_text ev
    /\ up_url req = endpoints_convert fmt
    /\ header req "Authorization" = Some ("Bearer " +:+ tok)
    /\ header req "Content-Type" = Some "application/octect-stream"
    /\ header req "Content-Type" <> Some "application/octet-stream".
Proof.
  intros Hvalid. rewrite (POST_valid env fetch ev tok fmt Hvalid). cbv zeta. cbn.
  eexists. repeat split. discriminate.
Qed.

End Proxy.

Section ProxyOnExamples.
Import Js Endpoints ConvertProxy Examples ProxyExamples.
Existing Instance example_lib.

Lemma to_stl_passes : passes_validation dev to_stl "dev-token" "stl".
Proof. repeat split; try discriminate. exact stl_supported. Qed.

(** The answer to a valid request carries the service's 201. *)
Lemma proxy_response_mirrors_upstream_status_witness :
  passes_validation dev to_stl "dev-token" "stl"
  /\ completed !! "statusCode" = None
  /\ exists body,
       (POST dev service to_stl).1 = JsonResponse body
       /\ body !! "statusCode" = Some (JNum 201)
       /\ body !! "status" = Some (JStr "completed").
Proof.
  split; [exact to_stl_passes|]. split; [reflexivity|].
  destruct (proxy_response_mirrors_upstream_status dev service to_stl "dev-token" "stl"
              completed to_stl_passes eq_refl eq_refl)
    as (body & Hpost & Hcode & Hfields & _).
  exists body. split; [exact Hpost|]. split; [exact Hcode|].
  apply Hfields. reflexivity.
Defined.

(** The upstream request of a valid request, with its misspelt header. *)
Lemma proxy_upstream_request_content_type_witness :
  passes_validation dev to_stl "dev-token" "stl"
  /\ exists req,
       (POST dev service to_stl).2 = [req]
       /\ up_body req = "{}"
       /\ header req "Content-Type" = Some "application/octect-stream".
Proof.
  split; [exact to_stl_passes|].
  destruct (proxy_upstream_request_content_type dev service to_stl "dev-token" "stl"
              to_stl_passes)
    as (req & Hreqs & Hbody & _ & _ & Htype & _).
  exists req. split; [exact Hreqs|]. split; [exact Hbody|exact Htype].
Defined.

(** The spread comes after [statusCode] in the object literal: a result
    that had a [statusCode] of its own would keep it.  [FileConversion]
    declares none. *)
Example spread_overrides_statusCode :
  withStatusCode 500 {[ "statusCode" := JNum 200 ]} !! "statusCode" = Some (JNum 200).
Proof. reflexivity. Qed.

(** The guards on concrete requests: no credential, an empty body, no
    format, an unknown format. *)
Example proxy_rejections :
  POST {| PROD := true; VITE_API_TOKEN := Some "dev-token" |} service to_stl
    = (HttpError 401 "You must be logged in to use this API.", [])
  /\ POST dev service {| cookies := ∅; request_text := ""; output_format := Some "stl" |}
    = (HttpError 422 "Please include the model as your fetch request body.", [])
  /\ POST dev service {| cookies := ∅; request_text := "{}"; output_format := None |}
    = (HttpError 422 "Please include the output format in the URL.", [])
  /\ POST dev service {| cookies := ∅; request_text := "{}"; output_format := Some "kcl" |}
    = (HttpError 422 "Invalid output format.", []).
Proof. repeat split. Qed.

End ProxyOnExamples.

(** ** The generation-view proxy module *)

Section ViewModule.
Import ViewProxy.
Context `{Lib}.

Lemma resolve_module_token (globals : gmap string Value) :
  globals !! "token" = None ->
  resolve [module_scope; globals] "token" = inr (ReferenceError "token").
Proof. intros Hg. cbn [resolve]. rewrite Hg. reflexivity. Qed.

(** C10. The module's last top-level statement reads [token].  No binding
    of that name is in the module scope, only in the scope of [POST]'s body;
    so, in a global scope that has [console] and no [token], evaluating the
    module throws [ReferenceError: token is not defined], the module exports
    no handler, and no request is served.  Run where the handler's [token]
    is in scope, the statement prints that credential after ["TOKEN:"]. *)
Theorem view_module_fails_to_evaluate (globals : gmap string Value) :
  globals !! "token" = None ->
  is_Some (globals !! "console") ->
  module_scope !! "token" = None
  /\ evaluate globals = Errored (ReferenceError "token")
  /\ handler_available globals = false
  /\ forall (env : Env) (cookies : gmap string string) (credential : string),
       POST_token env cookies = Some credential ->
       handler_scope (POST_token env cookies) !! "token" = Some (VStr credential)
       /\ log_token [handler_scope (POST_token env cookies); module_scope; globals]
          = inl [VStr "TOKEN:"; VStr credential].
Proof.
  intros Htoken [console Hconsole].
  assert (Heval : evaluate globals = Errored (ReferenceError "token")).
  { unfold evaluate, log_token. rewrite (resolve_module_token globals Htoken).
    cbn [resolve]. change (module_scope !! "console") with (@None Value).
    rewrite Hconsole. reflexivity. }
  split; [reflexivity|]. split; [exact Heval|].
  split; [unfold handler_available; rewrite Heval; reflexivity|].
  intros env cookies credential ->. split; [reflexivity|].
  unfold log_token. cbn [resolve].
  change (handler_scope (Some credential) !! "console") with (@None Value).
  change (module_scope !! "console") with (@None Value).
  rewrite Hconsole.
  change (handler_scope (Some credential) !! "token") with (Some (VStr credential)).
  reflexivity.
Qed.

End ViewModule.

(** The module in a server's global scope. *)
Lemma view_module_fails_to_evaluate_witness :
  ProxyExamples.node_globals !! "token" = None
  /\ ViewProxy.evaluate ProxyExamples.node_globals
     = ViewProxy.Errored (ViewProxy.ReferenceError "token")
  /\ ViewProxy.handler_available ProxyExamples.node_globals = false.
Proof.
  split; [reflexivity|].
  destruct (@view_module_fails_to_evaluate Examples.example_lib
              ProxyExamples.node_globals eq_refl
              (ex_intro _ (ViewProxy.VRef "console") eq_refl))
    as (_ & Heval & Hnone & _).
  split; [exact Heval|exact Hnone].
Defined.

(** * Further properties *)

(** ** The download button beyond single selections *)

Section ExportFlowFurther.
Import Js Endpoints DownloadButton ExportStates.
Context `{Lib}.

(** What [settle] clicks, if anything: the anchor of the state it returns,
    which is [ready] and holds a non-empty [outputData]. *)
Lemma settle_click (c c' : Component) (effects : list Effect) (e : Effect) :
  settle c = (c', effects) -> In e effects ->
  e = click c' /\ c' = set_status ready c /\ truthy (outputData c) = true.
Proof.
  unfold settle. cbn. destruct (truthy (outputData c)) eqn:Hd; intros [= <- <-] Hin.
  - destruct Hin as [<-|[]]. repeat split.
  - destruct Hin.
Qed.

Lemma truthy_Some (v : option string) :
  truthy v = true -> exists p, v = Some p /\ p <> "".
Proof.
  destruct v as [p|]; [|discriminate]. cbn. intros Hp.
  exists p. split; [reflexivity|]. apply truthy_str_true. exact Hp.
Qed.

(** The href of the anchor of a concrete format. *)
Lemma dataUrl_concrete (c : Component) (p : string) :
  currentOutput c <> "kcl" -> outputData c = Some p ->
  dataUrl c = "data:" +:+ interpolate (mime (currentOutput c)) +:+ ";base64," +:+ p.
Proof.
  intros Hk Hd. unfold dataUrl, currentMimeType.
  destruct (decide (currentOutput c = "kcl")) as [?|_]; [contradiction|].
  rewrite Hd. reflexivity.
Qed.

Lemma settle_download (c c' : Component) (effects : list Effect) (href name : string) :
  currentOutput c <> "kcl" ->
  outputData c = get (outputs c) (key (currentOutput c)) ->
  settle c = (c', effects) -> In (Click href name) effects ->
  download_of c' href name.
Proof.
  intros Hk Hslot Hsettle Hin.
  destruct (settle_click c c' effects _ Hsettle Hin) as (Hclick & -> & Hd).
  injection Hclick as -> ->.
  destruct (truthy_Some _ Hd) as (p & Hp & Hne).
  split; [reflexivity|]. split; [reflexivity|]. split; [reflexivity|].
  right. cbn. split; [exact Hk|]. exists p.
  split; [exact Hne|]. split; [exact Hp|]. split; [congruence|].
  apply (dataUrl_concrete (set_status ready c) p); assumption.
Qed.

(** Every click the component makes, in any state and on any event, is on
    an anchor rendered from the state the event leaves: the [kcl] URL of the
    source text, or, for a concrete format, the URL of a non-empty payload
    that is the entry of the selected format in the outputs mapping.  It
    never saves an [undefined] or empty payload. *)
Theorem every_click_saves_cached_payload (w : World) (e : Event) :
  exists effects,
    trace (step e w) = trace w ++ effects
    /\ forall href name, In (Click href name) effects ->
         download_of (comp (step e w)) href name.
Proof.
  destruct e as [value|i r|].
  - unfold step. destruct (updateOutput value (comp w)) as [c effects] eqn:Hupd.
    exists effects. split; [reflexivity|]. intros href name Hin. cbn [comp].
    unfold updateOutput in Hupd. cbn in Hupd.
    destruct (decide (value = "kcl")) as [->|Hk].
    + destruct (truthy_str (code (comp w))) eqn:Hcode; injection Hupd as <- <-;
        [|destruct Hin].
      destruct Hin as [Hin|[]]. injection Hin as <- <-.
      split; [reflexivity|]. split; [reflexivity|]. split; [reflexivity|].
      left. split; reflexivity.
    + destruct (truthy (get (outputs (comp w)) (key value))) eqn:Hhit.
      * eapply settle_download; [| |exact Hupd|exact Hin]; [exact Hk|reflexivity].
      * injection Hupd as <- <-. destruct Hin as [Hin|[]]. discriminate Hin.
  - unfold step. destruct (inflight w !! i) as [req|].
    2:{ exists []. split; [rewrite app_nil_r; reflexivity|]. intros ? ? []. }
    destruct (onResponse r (comp w)) as [[c effects] done] eqn:Hresp.
    exists effects. split; [reflexivity|]. intros href name Hin. cbn [comp].
    unfold onResponse in Hresp.
    destruct (json r) as [d|]; [|injection Hresp as <- <- <-; destruct Hin].
    destruct (negb (response_ok (http_status r)));
      [injection Hresp as <- <- <-; destruct Hin|].
    destruct d as [|[sc|] outs]; try (injection Hresp as <- <- <-; destruct Hin).
    destruct (negb (startsWith (Number_toString sc) "2"));
      [injection Hresp as <- <- <-; destruct Hin|].
    destruct outs as [o|]; [|injection Hresp as <- <- <-; destruct Hin].
    cbv zeta in Hresp.
    destruct (settle _) as [c1 effects1] eqn:Hsettle. injection Hresp as <- <- <-.
    destruct (decide (currentOutput (comp w) = "kcl")) as [Hkcl|Hk].
    + destruct (settle_click _ _ _ _ Hsettle Hin) as (Hclick & -> & Hd).
      injection Hclick as -> ->.
      split; [reflexivity|]. split; [reflexivity|]. split; [reflexivity|].
      left. cbn. split; [exact Hkcl|]. unfold dataUrl. cbn.
      destruct (decide (currentOutput (comp w) = "kcl")); [reflexivity|contradiction].
    + eapply settle_download; [| |exact Hsettle|exact Hin]; [exact Hk|reflexivity].
  - exists []. split; [cbn; rewrite app_nil_r; reflexivity|]. intros ? ? [].
Qed.

(** *** The anchor serves the cache *)






(** *** Sequences of selections and responses *)

Lemma step_select_miss (w : World) (f : string) :
  f <> "kcl" ->
  truthy (get (outputs (comp w)) (key f)) = false ->
  let c1 := set_status loading (set_currentOutput f (comp w)) in
  step (Select f) w =
    {| comp := c1; inflight := inflight w ++ [convertRequest c1];
       trace := trace w ++ [Fetch (convertRequest c1)] |}.
Proof.
  intros Hk Hmiss c1. unfold step. rewrite (updateOutput_miss _ _ Hk Hmiss). reflexivity.
Qed.

Lemma step_select_hit (w : World) (f : string) :
  f <> "kcl" ->
  truthy (get (outputs (comp w)) (key f)) = true ->
  let c1 := set_status ready (set_outputData (get (outputs (comp w)) (key f))
              (set_status loading (set_currentOutput f (comp w)))) in
  step (Select f) w =
    {| comp := c1; inflight := inflight w; trace := trace w ++ [click c1] |}.
Proof.
  intros Hk Hhit c1. unfold step. rewrite (updateOutput_hit _ _ Hk Hhit).
  rewrite settle_truthy by exact Hhit. cbn. rewrite app_nil_r. reflexivity.
Qed.

Lemma fetches_app (a b : list Effect) : fetches (a ++ b) = fetches a ++ fetches b.
Proof. unfold fetches. apply omap_app. Qed.

Lemma clicks_app (a b : list Effect) : clicks (a ++ b) = clicks a ++ clicks b.
Proof. unfold clicks. apply omap_app. Qed.

(** The handler does not look at [status] before it fetches: selecting an
    uncached format again while its request is in flight sends the same
    request a second time, and both stay in flight. *)
Theorem reselecting_while_loading_fetches_again (w : World) (f : string) :
  f <> "kcl" ->
  truthy (get (outputs (comp w)) (key f)) = false ->
  let w1 := step (Select f) w in
  let w2 := step (Select f) w1 in
  exists req : Request,
    status (comp w1) = loading
    /\ url req = localConvert f
    /\ inflight w2 = inflight w ++ [req; req]
    /\ fetches (trace w2) = fetches (trace w) ++ [req; req]
    /\ clicks (trace w2) = clicks (trace w).
Proof.
  intros Hk Hmiss w1 w2. subst w2 w1.
  rewrite (step_select_miss w f Hk Hmiss). cbv zeta.
  rewrite step_select_miss by (try exact Hk; exact Hmiss).
  exists (convertRequest (set_status loading (set_currentOutput f (comp w)))). cbn.
  split; [reflexivity|]. split; [reflexivity|].
  rewrite <- !app_assoc. split; [reflexivity|].
  rewrite !fetches_app, !clicks_app. cbn. rewrite !app_nil_r. split; reflexivity.
Qed.

(** A failed conversion is not remembered: selecting the format again after
    the failure sends a new request for it, with the status back at
    [loading]; for a format other than [gltf] it is the same request as the
    first. *)
Theorem failed_conversion_is_retried_on_reselect (w : World) (f : string) (r : Response) :
  supported f ->
  truthy (get (outputs (comp w)) (key f)) = false ->
  ConversionFailure f r ->
  let w2 := step (Respond (length (inflight w)) r) (step (Select f) w) in
  let w3 := step (Select f) w2 in
  exists req1 req2 : Request,
    status (comp w2) = failed
    /\ status (comp w3) = loading
    /\ inflight w3 = inflight w ++ [req2]
    /\ fetches (trace w3) = fetches (trace w) ++ [req1; req2]
    /\ url req2 = localConvert f
    /\ (f <> "gltf" -> req2 = req1).
Proof.
  intros Hf Hmiss Hfail w2 w3.
  pose proof (supported_not_kcl f Hf) as Hk.
  set (c1 := set_status loading (set_currentOutput f (comp w))).
  destruct (inflight_last (inflight w) (convertRequest c1)) as [Hlook Hdel].
  destruct (onResponse_failure c1 r Hfail Hmiss) as (c' & Hresp & Hst & Hcur & Hslot & Hother).
  assert (E2 : w2 = {| comp := c'; inflight := inflight w;
                       trace := trace w ++ [Fetch (convertRequest c1)] |}).
  { subst w2. rewrite (step_select_miss w f Hk Hmiss). cbv zeta. fold c1.
    unfold step. cbn [inflight comp trace]. rewrite Hlook, Hresp, Hdel.
    rewrite app_nil_r. reflexivity. }
  assert (Hmiss2 : truthy (get (outputs (comp w2)) (key f)) = false)
    by (rewrite E2; exact Hslot).
  subst w3. rewrite (step_select_miss w2 f Hk Hmiss2). cbv zeta. rewrite E2. cbn.
  exists (convertRequest c1), (convertRequest (set_status loading (set_currentOutput f c'))).
  split; [exact Hst|]. split; [reflexivity|]. split; [reflexivity|].
  split; [rewrite <- app_assoc, fetches_app; reflexivity|]. split; [reflexivity|].
  intros Hgltf. unfold convertRequest. cbn. unfold get.
  rewrite Hother; [reflexivity|].
  change (key "gltf" <> key (currentOutput c1)). intros E. apply key_inj in E.
  cbn in E. congruence.
Qed.

(** A conversion is fetched once: after the successful answer, selecting
    the format again is served from the mapping.  Over selection, answer and
    second selection there is one request and there are two downloads, both
    of the returned payload under the format's content type and file name. *)
Theorem conversion_is_fetched_once (w : World) (f : string)
    (r : Response) (sc : Z) (o : gmap string string) (p : string) :
  supported f ->
  truthy (get (outputs (comp w)) (key f)) = false ->
  response_ok (http_status r) = true ->
  json r = Some (Data (Some sc) (Some o)) ->
  200 <= sc <= 299 ->
  o !! key f = Some p ->
  p <> "" ->
  let w3 := run [Select f; Respond (length (inflight w)) r; Select f] w in
  let href := "data:" +:+ interpolate (mime f) +:+ ";base64," +:+ p in
  let name := toKebabCase (prompt (comp w)) +:+ "." +:+ f in
  length (fetches (trace w3)) = S (length (fetches (trace w)))
  /\ clicks (trace w3) = clicks (trace w) ++ [(href, name); (href, name)]
  /\ inflight w3 = inflight w
  /\ status (comp w3) = ready
  /\ get (outputs (comp w3)) (key f) = Some p.
Proof.
  intros Hf Hmiss Hok Hjson Hsc Hp Hne w3 href name.
  pose proof (supported_not_kcl f Hf) as Hk.
  apply truthy_str_true in Hne.
  set (c1 := set_status loading (set_currentOutput f (comp w))).
  destruct (inflight_last (inflight w) (convertRequest c1)) as [Hlook Hdel].
  pose proof (onResponse_success c1 r sc o p Hok Hjson Hsc Hp Hne) as Hresp.
  cbv zeta in Hresp.
  set (c2 := set_status ready (set_outputData (Some p)
               (set_outputs (<[key (currentOutput c1) := Some p]> (outputs c1)) c1))) in *.
  assert (E2 : step (Respond (length (inflight w)) r) (step (Select f) w)
               = {| comp := c2; inflight := inflight w;
                    trace := (trace w ++ [Fetch (convertRequest c1)]) ++ [click c2] |}).
  { rewrite (step_select_miss w f Hk Hmiss). cbv zeta. fold c1.
    unfold step. cbn [inflight comp trace]. rewrite Hlook, Hresp, Hdel. reflexivity. }
  assert (Hget : get (outputs c2) (key f) = Some p) by apply get_insert_eq.
  assert (Hhit : truthy (get (outputs c2) (key f)) = true) by (rewrite Hget; exact Hne).
  subst w3. unfold run. cbn [foldl]. rewrite E2.
  rewrite step_select_hit by (try exact Hk; exact Hhit). cbv zeta.
  cbn [inflight comp trace]. rewrite Hget.
  rewrite !fetches_app, !clicks_app, !length_app. cbn.
  split; [lia|]. split.
  { rewrite !app_nil_r, <- app_assoc. unfold dataUrl, currentMimeType. cbn.
    destruct (decide (f = "kcl")) as [?|_]; [contradiction|]. reflexivity. }
  split; [reflexivity|]. split; [reflexivity|]. apply get_insert_eq.
Qed.

(** *** What is written, and where *)

(** The outputs mapping is written by arriving responses only, and an
    arriving response writes no slot but that of the format selected at its
    arrival; selections and navigation leave the mapping as it is, and no
    event touches the two props [prompt] and [code]. *)
Theorem events_write_only_selected_slot (w : World) (e : Event) :
  (forall k, k <> key (currentOutput (comp w)) ->
     outputs (comp (step e w)) !! k = outputs (comp w) !! k)
  /\ (in_view e = false \/ (exists value, e = Select value) ->
      outputs (comp (step e w)) = outputs (comp w))
  /\ prompt (comp (step e w)) = prompt (comp w)
  /\ code (comp (step e w)) = code (comp w).
Proof.
  destruct e as [value|i r|].
  - assert (E : outputs (comp (step (Select value) w)) = outputs (comp w)
                /\ prompt (comp (step (Select value) w)) = prompt (comp w)
                /\ code (comp (step (Select value) w)) = code (comp w)).
    { unfold step, updateOutput, settle. cbn.
      destruct (decide (value = "kcl")); [destruct (truthy_str _); repeat split|].
      destruct (truthy (get _ _)); repeat split. }
    destruct E as (Eo & Ep & Ec). rewrite Eo. repeat split; assumption.
  - assert (E : (forall k, k <> key (currentOutput (comp w)) ->
                   outputs (comp (step (Respond i r) w)) !! k = outputs (comp w) !! k)
                /\ prompt (comp (step (Respond i r) w)) = prompt (comp w)
                /\ code (comp (step (Respond i r) w)) = code (comp w)).
    { unfold step. destruct (inflight w !! i); [|repeat split].
      unfold onResponse, settle.
      destruct (json r) as [d|]; [|repeat split].
      destruct (negb (response_ok (http_status r))); [repeat split|].
      destruct d as [|[sc|] outs]; [repeat split| |repeat split].
      destruct (negb (startsWith (Number_toString sc) "2")); [repeat split|].
      destruct outs as [o|]; [|repeat split]. cbn.
      repeat split. intros k Hk. rewrite lookup_insert_ne by congruence. reflexivity. }
    destruct E as (Eo & Ep & Ec). split; [exact Eo|]. split; [|split; assumption].
    intros [Hview|[value Hsel]]; discriminate.
  - repeat split.
Qed.

(** [onNavigate] resets the selected format and nothing else, so a request
    in flight is answered under [gltf].  A format is selected and requested,
    the user navigates, the successful answer arrives: the slot of the
    canonical source is overwritten with what the answer holds under
    [source.gltf].  An answer without that key leaves the result without its
    source: the status ends [failed], the payload of the requested format is
    not stored, and the next conversion request has [base64ToBlob(undefined)]
    for its body. *)
Theorem response_after_navigation_overwrites_source (w : World) (f : string)
    (r : Response) (sc : Z) (o : gmap string string) :
  f <> "kcl" ->
  truthy (get (outputs (comp w)) (key f)) = false ->
  response_ok (http_status r) = true ->
  json r = Some (Data (Some sc) (Some o)) ->
  200 <= sc <= 299 ->
  let w3 := run [Select f; Navigate; Respond (length (inflight w)) r] w in
  currentOutput (comp w3) = "gltf"
  /\ get (outputs (comp w3)) "source.gltf" = o !! "source.gltf"
  /\ status (comp w3) = (if truthy (o !! "source.gltf") then ready else failed)
  /\ (f <> "gltf" -> outputs (comp w3) !! key f = outputs (comp w) !! key f)
  /\ (o !! "source.gltf" = None ->
      forall g, body (convertRequest (set_currentOutput g (comp w3))) = base64ToBlob None).
Proof.
  intros Hk Hmiss Hok Hjson Hsc w3. subst w3. unfold run. cbn [foldl].
  rewrite (step_select_miss w f Hk Hmiss). cbv zeta.
  set (c1 := set_status loading (set_currentOutput f (comp w))).
  destruct (inflight_last (inflight w) (convertRequest c1)) as [Hlook Hdel].
  unfold step. cbn [inflight comp trace]. rewrite Hlook.
  unfold onResponse. rewrite Hjson, Hok. cbn [negb].
  rewrite (startsWith_2_of_2xx sc Hsc). cbn [negb]. cbv zeta.
  change (key (currentOutput (set_currentOutput "gltf" c1))) with "source.gltf".
  unfold settle. cbn. rewrite !get_insert_eq.
  split; [reflexivity|]. split; [reflexivity|]. split; [reflexivity|]. split.
  - intros Hgltf. apply lookup_insert_ne.
    change ("source.gltf" <> key f) with (key "gltf" <> key f).
    intros E. apply key_inj in E. congruence.
  - intros Hnone g. rewrite Hnone. reflexivity.
Qed.

(** When the second part of the handler throws, it has changed nothing and
    done nothing; and it throws exactly on a body that is not JSON or, the
    transport having succeeded, on a body without [statusCode] or on one
    whose [statusCode] starts with 2 and that has no [outputs]. *)
Theorem rejected_handler_changes_nothing (r : Response) (c : Component) :
  (throws r = true <-> exists e, (onResponse r c).2 = Rejected e)
  /\ (forall e, (onResponse r c).2 = Rejected e -> onResponse r c = (c, [], Rejected e)).
Proof.
  unfold throws, onResponse.
  destruct (json r) as [d|]; cbn.
  2:{ split; [split; eauto|]. intros e [= <-]. reflexivity. }
  destruct (response_ok (http_status r)); cbn.
  2:{ split; [split; [discriminate|intros [e He]; discriminate He]|]. intros e He. discriminate He. }
  destruct d as [|[sc|] outs]; cbn.
  - split; [split; [discriminate|intros [e He]; discriminate He]|]. intros e He. discriminate He.
  - destruct (startsWith (Number_toString sc) "2"); cbn.
    + destruct outs as [o|]; cbn.
      * unfold settle. cbn.
        split; [split; [discriminate|intros [e He]; discriminate He]|].
        intros e He. discriminate He.
      * split; [split; eauto|]. intros e [= <-]. reflexivity.
    + split; [split; [discriminate|intros [e He]; discriminate He]|].
      intros e He. discriminate He.
  - split; [split; eauto|]. intros e [= <-]. reflexivity.
Qed.

End ExportFlowFurther.

(** ** The conversion proxy: what decides its answer *)

Section ProxyFurther.
Import Js Endpoints ConvertProxy.
Context `{Lib}.

(** The two guards on a request, as equations on [POST]. *)
Lemma proxy_guards (env : Env) (fetch : UpstreamRequest -> UpstreamResponse)
    (ev : RequestEvent) :
  (no_credential env ev ->
     POST env fetch ev = (HttpError 401 "You must be logged in to use this API.", []))
  /\ (~ no_credential env ev -> malformed ev ->
       exists message, POST env fetch ev = (HttpError 422 message, [])).
Proof.
  split.
  - unfold no_credential, POST. destruct (token env ev) as [tok|]; [|reflexivity].
    cbn. intros ->. reflexivity.
  - unfold no_credential, malformed, POST.
    destruct (token env ev) as [tok|]; cbn [truthy]; [|congruence].
    destruct (truthy_str tok); [|congruence]. cbn [negb]. intros _ Hbad.
    destruct (truthy_str (request_text ev)) eqn:Hbody; cbn [negb]; [|eauto].
    destruct Hbad as [Hempty|Hfmt]; [apply truthy_str_false in Hempty; congruence|].
    destruct (output_format ev) as [fmt|]; [|eauto].
    destruct (truthy_str fmt); cbn [negb]; [|eauto].
    destruct (validFormat fmt) eqn:Hvalid; cbn [negb]; [|eauto].
    apply validFormat_supported in Hvalid. contradiction.
Qed.

Lemma POST_cases (env : Env) (fetch : UpstreamRequest -> UpstreamResponse)
    (ev : RequestEvent) :
  no_credential env ev
  \/ (~ no_credential env ev /\ malformed ev)
  \/ exists tok fmt, passes_validation env ev tok fmt.
Proof.
  unfold no_credential, malformed, passes_validation.
  destruct (token env ev) as [tok|]; [|left; reflexivity]. cbn.
  destruct (truthy_str tok) eqn:Htok; [|left; reflexivity]. right.
  destruct (request_text ev) as [|a body] eqn:Hbody; [left; split; [discriminate|tauto]|].
  destruct (output_format ev) as [fmt|]; [|left; split; [discriminate|tauto]].
  destruct (validFormat fmt) eqn:Hvalid.
  - right. exists tok, fmt. apply validFormat_supported in Hvalid.
    apply truthy_str_true in Htok. repeat split; try assumption. discriminate.
  - left. split; [discriminate|]. right. intros Hsup.
    apply validFormat_supported in Hsup. congruence.
Qed.

(** The proxy's answers, read backwards.  An error answer is a 401 given
    for want of a credential or a 422 given to a malformed request, and no
    upstream request was made for it.  A JSON answer, and an uncaught
    rejection, come only after exactly one upstream request, made for a
    request that passed the guards: the JSON answer is the parsed upstream
    body with [statusCode], the rejection is a body that did not parse.  So
    the conversion service is never contacted for a request without
    credential, body or supported format, and never twice. *)
Theorem proxy_answer_inversion (env : Env)
    (fetch : UpstreamRequest -> UpstreamResponse) (ev : RequestEvent) :
  match POST env fetch ev with
  | (HttpError status _, requests) =>
      requests = []
      /\ (status = 401 /\ no_credential env ev
          \/ status = 422 /\ ~ no_credential env ev /\ malformed ev)
  | (JsonResponse body, requests) =>
      exists tok fmt data,
        passes_validation env ev tok fmt
        /\ requests = [upstreamRequest tok (request_text ev) fmt]
        /\ up_json (fetch (upstreamRequest tok (request_text ev) fmt)) = Some data
        /\ body = withStatusCode
                    (up_status (fetch (upstreamRequest tok (request_text ev) fmt))) data
  | (Uncaught, requests) =>
      exists tok fmt,
        passes_validation env ev tok fmt
        /\ requests = [upstreamRequest tok (request_text ev) fmt]
        /\ up_json (fetch (upstreamRequest tok (request_text ev) fmt)) = None
  end.
Proof.
  destruct (POST_cases env fetch ev) as [Hno|[[Hcred Hbad]|(tok & fmt & Hvalid)]].
  - destruct (proxy_guards env fetch ev) as (H401 & _).
    rewrite (H401 Hno). split; [reflexivity|]. left. split; [reflexivity|exact Hno].
  - destruct (proxy_guards env fetch ev) as (_ & H422).
    destruct (H422 Hcred Hbad) as [message ->].
    split; [reflexivity|]. right. repeat split; assumption.
  - rewrite (POST_valid env fetch ev tok fmt Hvalid). cbv zeta.
    destruct (up_json _) as [data|] eqn:Hjson.
    + exists tok, fmt, data. split; [exact Hvalid|]. repeat split. exact Hjson.
    + exists tok, fmt. split; [exact Hvalid|]. repeat split. exact Hjson.
Qed.

(** Where the credential comes from.  In production it is the session
    cookie alone: the fallback token has no influence on the answer, and a
    request without the cookie is refused with 401 whatever the fallback.
    Outside production it is the fallback token alone: the cookies have no
    influence on the answer. *)
Theorem proxy_credential_source (env : Env)
    (fetch : UpstreamRequest -> UpstreamResponse) (ev : RequestEvent) :
  (PROD env = true ->
     (forall fallback,
        POST {| PROD := true; VITE_API_TOKEN := fallback |} fetch ev = POST env fetch ev)
     /\ (cookies ev !! AUTH_COOKIE_NAME = None ->
         POST env fetch ev = (HttpError 401 "You must be logged in to use this API.", [])))
  /\ (PROD env = false ->
      forall jar,
        POST env fetch {| cookies := jar; request_text := request_text ev;
                          output_format := output_format ev |}
        = POST env fetch ev).
Proof.
  split.
  - intros Hprod. split.
    + intros fallback. unfold POST, token. cbn. rewrite Hprod. reflexivity.
    + intros Hnone. unfold POST, token. rewrite Hprod, Hnone. reflexivity.
  - intros Hdev jar. unfold POST, token. cbn. rewrite Hdev. reflexivity.
Qed.

End ProxyFurther.

(** ** The component and the proxy together *)

Section EndToEnd.
Import Js Endpoints DownloadButton.
Context `{Lib}.

Lemma offered_concrete (c : Component) (v : string) :
  In v (availableFormats c) -> v <> "kcl" -> supported v.
Proof.
  unfold availableFormats. rewrite in_app_iff. intros [Hin|Hin] Hk.
  - apply list_elem_of_In. exact Hin.
  - destruct (truthy_str (code c)); [destruct Hin as [<-|[]]; congruence|destruct Hin].
Qed.

(** Every request the component sends for an option of its select passes
    the proxy's two guards on the format: the router binds the selected
    format from the request's path, and it is a key of [CADMIMETypes].  With
    a credential and a source that decodes to a non-empty body, the request
    passes all guards of the proxy; with a source that decodes to nothing it
    is refused with 422. *)
Theorem offered_formats_pass_proxy_guards (c : Component) (v : string) (req : Request)
    (jar : gmap string string) (env : ConvertProxy.Env)
    (fetch : ConvertProxy.UpstreamRequest -> ConvertProxy.UpstreamResponse) :
  In v (availableFormats c) ->
  In (Fetch req) (updateOutput v c).2 ->
  ConvertProxy.output_format (Wire.received jar req) = Some v
  /\ ConvertProxy.validFormat v = true
  /\ (forall tok, ConvertProxy.token env (Wire.received jar req) = Some tok -> tok <> "" ->
        (body req <> "" -> ConvertProxy.passes_validation env (Wire.received jar req) tok v)
        /\ (body req = "" ->
              ConvertProxy.POST env fetch (Wire.received jar req)
              = (ConvertProxy.HttpError 422
                   "Please include the model as your fetch request body.", []))).
Proof.
  intros Hoffered Hsent.
  assert (Hk : v <> "kcl").
  { intros ->. rewrite updateOutput_kcl in Hsent. cbn in Hsent.
    destruct (truthy_str (code c)); [destruct Hsent as [E|[]]; discriminate E|destruct Hsent]. }
  pose proof (offered_concrete c v Hoffered Hk) as Hsup.
  assert (Hreq : req = convertRequest (set_status loading (set_currentOutput v c))).
  { destruct (truthy (get (outputs c) (key v))) eqn:Hslot.
    - rewrite (updateOutput_hit c v Hk Hslot) in Hsent.
      rewrite settle_truthy in Hsent by exact Hslot.
      destruct Hsent as [E|[]]. discriminate E.
    - rewrite (updateOutput_miss c v Hk Hslot) in Hsent.
      destruct Hsent as [E|[]]. injection E as <-. reflexivity. }
  assert (Hparam : ConvertProxy.output_format (Wire.received jar req) = Some v).
  { rewrite Hreq. cbn. apply supported_route_param. exact Hsup. }
  split; [exact Hparam|]. split; [apply validFormat_supported; exact Hsup|].
  intros tok Htok Hne. split.
  - intros Hbody. repeat split; assumption.
  - intros Hbody. unfold ConvertProxy.POST. rewrite Htok.
    apply truthy_str_true in Hne. rewrite Hne. cbn [negb].
    change (ConvertProxy.request_text (Wire.received jar req)) with (body req).
    rewrite Hbody. reflexivity.
Qed.

Lemma strings_of_strings (o : gmap string string) :
  omap Wire.string_of (ConvertProxy.JStr <$> o) = o.
Proof.
  apply map_eq. intros k. rewrite lookup_omap, lookup_fmap.
  destruct (o !! k); reflexivity.
Qed.

(** The two layers of status, end to end.  The proxy answers a validated
    request with the upstream body and [statusCode]; the component reads
    that answer.  Even when the transport to the proxy succeeded, an
    upstream status outside 2xx ends the component in [failed] with the
    mapping untouched; with an upstream 2xx the status is decided by the
    payload the upstream body holds for the selected format, which is what
    gets stored for it. *)
Theorem upstream_status_decides_component (env : ConvertProxy.Env)
    (fetch : ConvertProxy.UpstreamRequest -> ConvertProxy.UpstreamResponse)
    (ev : ConvertProxy.RequestEvent) (tok f : string)
    (data : gmap string ConvertProxy.Json) (o : gmap string string)
    (c : Component) (transport : Z) :
  ConvertProxy.passes_validation env ev tok f ->
  let response := fetch (ConvertProxy.upstreamRequest tok (ConvertProxy.request_text ev) f) in
  ConvertProxy.up_json response = Some data ->
  data !! "statusCode" = None ->
  data !! "outputs" = Some (Wire.of_strings o) ->
  100 <= ConvertProxy.up_status response <= 999 ->
  currentOutput c = f ->
  response_ok transport = true ->
  exists answer,
    (ConvertProxy.POST env fetch ev).1 = ConvertProxy.JsonResponse answer
    /\ let c' := (onResponse {| http_status := transport;
                                json := Some (Wire.as_ConvertResponse answer) |} c).1.1 in
       (~ (200 <= ConvertProxy.up_status response <= 299) ->
          status c' = failed /\ outputs c' = outputs c)
       /\ (200 <= ConvertProxy.up_status response <= 299 ->
            status c' = (if truthy (o !! key f) then ready else failed)
            /\ get (outputs c') (key f) = o !! key f).
Proof.
  intros Hvalid response Hjson Hfresh Houts Hrange Hcur Hok. subst response.
  rewrite (POST_valid env fetch ev tok f Hvalid). cbv zeta. rewrite Hjson. cbn [fst].
  eexists. split; [reflexivity|].
  set (st := ConvertProxy.up_status _) in *.
  assert (Hread : Wire.as_ConvertResponse (ConvertProxy.withStatusCode st data)
                  = Data (Some st) (Some o)).
  { unfold Wire.as_ConvertResponse, ConvertProxy.withStatusCode.
    rewrite lookup_union_r by exact Hfresh. rewrite lookup_singleton_eq.
    rewrite (lookup_union_Some_l _ _ _ _ Houts). unfold Wire.of_strings.
    rewrite strings_of_strings. reflexivity. }
  rewrite Hread. unfold onResponse. cbn [json http_status]. rewrite Hok. cbn [negb].
  split.
  - intros Hnot.
    assert (Hsw : startsWith (Number_toString st) "2" = false).
    { destruct (startsWith (Number_toString st) "2") eqn:E; [|reflexivity].
      apply startsWith_2_three_digits in E; [contradiction|exact Hrange]. }
    rewrite Hsw. cbn. split; reflexivity.
  - intros H2xx. rewrite (startsWith_2_of_2xx st H2xx). cbn [negb]. cbv zeta.
    rewrite Hcur. unfold settle. cbn. rewrite !get_insert_eq. split; reflexivity.
Qed.

End EndToEnd.

(** ** The handler of the generation-view proxy *)

Section ViewHandlerFacts.
Import Js ViewHandler.
Context `{Lib}.
Variable endpoints_view : ConvertProxy.Json -> string.

(** The guards of the view handler and their order.  A body that is not
    JSON makes the handler throw before any check.  A body without a truthy
    [id] is refused with 422 before the credential is looked at, so also
    when there is none; a body with an [id] and no credential is refused
    with 401.  No upstream request is made in any of these cases. *)
Theorem view_handler_guards (env : ViewProxy.Env)
    (fetch : UpstreamRequest -> UpstreamResponse) (ev : RequestEvent) :
  (request_json ev = None -> POST endpoints_view env fetch ev = (Uncaught, []))
  /\ (forall body, request_json ev = Some body ->
        (match body_id body with Some v => truthy_json v | None => false end = false ->
           POST endpoints_view env fetch ev = (HttpError 422 missing_id, []))
        /\ (match body_id body with Some v => truthy_json v | None => false end = true ->
            truthy (ViewProxy.POST_token env (cookies ev)) = false ->
            POST endpoints_view env fetch ev
            = (HttpError 401 "You must be logged in to use this API.", []))).
Proof.
  split.
  - intros Hbody. unfold POST. rewrite Hbody. reflexivity.
  - intros body Hbody. unfold POST. rewrite Hbody. cbv zeta. split.
    + intros Hid. rewrite Hid. reflexivity.
    + intros Hid Htok. rewrite Hid. cbn [negb].
      destruct (ViewProxy.POST_token env (cookies ev)) as [tok|]; [|reflexivity].
      cbn in Htok. rewrite Htok. destruct (body_id body); reflexivity.
Qed.



End ViewHandlerFacts.

(** ** The check on [statusCode] *)

Section StatusCodeCheck.
Import DecimalPos.Unsigned.








End StatusCodeCheck.

(** ** The further properties on concrete inputs *)

Section FurtherOnExamples.
Import Js Endpoints DownloadButton ExportStates Examples ProxyExamples.
Existing Instance example_lib.


(** Navigation is what the invariant excludes: it relabels the anchor of a
    converted [stl] as [gltf] and leaves its payload. *)
Example navigation_relabels_anchor :
  let c := comp (run [Select "stl"; Navigate] (display with_stl)) in
  status c = ready
  /\ outputData c = Some "c29saWQ="
  /\ dataUrl c = "data:model/gltf+json;base64,c29saWQ="
  /\ fileName c = "bracket.gltf"
  /\ get (outputs c) (key (currentOutput c)) = Some "Z2xURg==".
Proof. cbv zeta. repeat split. Qed.

Lemma reselecting_while_loading_fetches_again_witness :
  "obj" <> "kcl"
  /\ truthy (get (outputs fresh) (key "obj")) = false
  /\ exists req : Request,
       inflight (run [Select "obj"; Select "obj"] (display fresh)) = [req; req]
       /\ url req = localConvert "obj".
Proof.
  assert (Hk : "obj" <> "kcl") by discriminate.
  split; [exact Hk|]. split; [reflexivity|].
  destruct (reselecting_while_loading_fetches_again (display fresh) "obj" Hk eq_refl)
    as (req & _ & Hurl & Hflight & _).
  exists req. split; [exact Hflight|exact Hurl].
Defined.

Lemma failed_conversion_is_retried_on_reselect_witness :
  let r := {| http_status := 200; json := Some (Data (Some 500) None) |} in
  let w3 := run [Select "obj"; Respond 0 r; Select "obj"] (display fresh) in
  ConversionFailure "obj" r
  /\ status (comp w3) = loading
  /\ length (fetches (trace w3)) = 2%nat.
Proof.
  assert (Hfail : ConversionFailure "obj"
            {| http_status := 200; json := Some (Data (Some 500) None) |})
    by (apply failure_statusCode; lia).
  destruct (failed_conversion_is_retried_on_reselect (display fresh) "obj" _
              obj_supported eq_refl Hfail)
    as (req1 & req2 & _ & Hst & _ & Hfetches & _).
  split; [exact Hfail|]. split; [exact Hst|].
  cbv zeta. unfold run. cbn [foldl]. cbv zeta in Hfetches.
  change (length (inflight (display fresh))) with 0%nat in Hfetches.
  rewrite Hfetches. reflexivity.
Defined.

Lemma conversion_is_fetched_once_witness :
  let w3 := run [Select "obj"; Respond 0 obj_converted; Select "obj"] (display fresh) in
  length (fetches (trace w3)) = 1%nat
  /\ clicks (trace w3)
     = [("data:application/octet-stream;base64,byAx", "bracket.obj");
        ("data:application/octet-stream;base64,byAx", "bracket.obj")].
Proof.
  assert (Hp : "byAx" <> "") by discriminate.
  destruct (conversion_is_fetched_once (display fresh) "obj" obj_converted
              200 {[ "source.obj" := "byAx" ]} "byAx"
              obj_supported eq_refl eq_refl eq_refl ltac:(lia) eq_refl Hp)
    as (Hfetches & Hclicks & _).
  split; [exact Hfetches|exact Hclicks].
Defined.

Lemma response_after_navigation_overwrites_source_witness :
  let w3 := run [Select "obj"; Navigate; Respond 0 obj_converted] (display fresh) in
  get (outputs (comp w3)) "source.gltf" = None
  /\ status (comp w3) = failed
  /\ outputs (comp w3) !! key "obj" = None.
Proof.
  assert (Hk : "obj" <> "kcl") by discriminate.
  assert (Hg : "obj" <> "gltf") by discriminate.
  destruct (response_after_navigation_overwrites_source (display fresh) "obj" obj_converted
              200 {[ "source.obj" := "byAx" ]} Hk eq_refl eq_refl eq_refl ltac:(lia))
    as (_ & Hsource & Hst & Hslot & _).
  split; [exact Hsource|]. split; [exact Hst|]. exact (Hslot Hg).
Defined.

Lemma offered_formats_pass_proxy_guards_witness :
  let req := convertRequest (set_status loading (set_currentOutput "stl" fresh)) in
  In "stl" (availableFormats fresh)
  /\ In (Fetch req) (updateOutput "stl" fresh).2
  /\ ConvertProxy.passes_validation dev (Wire.received ∅ req) "dev-token" "stl".
Proof.
  cbv zeta.
  assert (Hin : In "stl" (availableFormats fresh)) by (cbn; tauto).
  assert (Hsent : In (Fetch (convertRequest (set_status loading (set_currentOutput "stl" fresh))))
                     (updateOutput "stl" fresh).2) by (left; reflexivity).
  split; [exact Hin|]. split; [exact Hsent|].
  destruct (offered_formats_pass_proxy_guards fresh "stl" _ ∅ dev service Hin Hsent)
    as (_ & _ & Hpass).
  destruct (Hpass "dev-token" eq_refl ltac:(discriminate)) as (Hvalid & _).
  apply Hvalid. discriminate.
Defined.

Lemma completed_outputs :
  completed !! "outputs" = Some (Wire.of_strings {[ "source.stl" := "c29saWQ=" ]}).
Proof. unfold Wire.of_strings. rewrite map_fmap_singleton. reflexivity. Qed.

(** The proxy's answer to a finished conversion, read by a component that
    has [stl] selected. *)
Lemma upstream_status_decides_component_witness :
  let c := set_status loading (set_currentOutput "stl" fresh) in
  ConvertProxy.passes_validation dev to_stl "dev-token" "stl"
  /\ exists answer,
       (ConvertProxy.POST dev service to_stl).1 = ConvertProxy.JsonResponse answer
       /\ status (onResponse {| http_status := 200;
                                json := Some (Wire.as_ConvertResponse answer) |} c).1.1 = ready.
Proof.
  cbv zeta. split; [exact to_stl_passes|].
  destruct (upstream_status_decides_component dev service to_stl "dev-token" "stl"
              completed {[ "source.stl" := "c29saWQ=" ]}
              (set_status loading (set_currentOutput "stl" fresh)) 200
              to_stl_passes eq_refl eq_refl completed_outputs ltac:(cbn; lia) eq_refl eq_refl)
    as (answer & Hanswer & _ & Hgood).
  exists answer. split; [exact Hanswer|].
  destruct (Hgood ltac:(cbn; lia)) as (Hst & _). exact Hst.
Defined.

End FurtherOnExamples.
